(** * LLMAgentOrg: the task state store and the LLM client

    A shallow embedding of [workflow/lib/state_manager.py] and
    [workflow/lib/llm_client.py].

    Python objects are modelled by the type [Py.value]; a dict keeps its
    insertion order (an association list), because [json.dump] writes the
    keys in that order.  A method of [StateManager] is a computation
    over a [world] (the task directory and the clock) that returns a
    value or raises; an exception leaves the effects performed before
    it in place. *)

From Stdlib Require Import String Ascii ZArith List Bool Lia.
From Stdlib Require DecimalString.
Import ListNotations.
Local Open Scope string_scope.
Local Open Scope Z_scope.
Set Warnings "-register-all".

(** ** Python values and the operations the two modules use on them *)

Module Py.

(** The exceptions raised in the two files or by the operations they
    call.  [JSONDecodeError] is the [ValueError] of [json.load];
    [OSError] is the class of the storage failures. *)
Inductive exn : Type :=
| KeyError (key : string)
| TypeError
| AttributeError
| JSONDecodeError
| OSError
| ValueError (msg : string)
| LLMError (msg : string).

Inductive result (A : Type) : Type :=
| Ok (a : A)
| Raise (e : exn).
Arguments Ok {A} a.
Arguments Raise {A} e.

(** [VObj n] is an object that is none of the JSON kinds and supports
    no operator, such as a [pathlib.Path]; [n] is its identity. *)
Inductive value : Type :=
| VNone
| VBool (b : bool)
| VInt (z : Z)
| VStr (s : string)
| VList (l : list value)
| VDict (d : list (string * value))
| VObj (n : nat).

Definition dict := list (string * value).

(** A dict with string keys, in insertion order. *)
Section Alist.
Context {V : Type}.

(** [d.get(k)]: the binding of [k]. *)
Fixpoint dict_get (d : list (string * V)) (k : string) : option V :=
  match d with
  | [] => None
  | (k', v) :: d' => if String.eqb k k' then Some v else dict_get d' k
  end.

(** [d[k] = v]: an existing key keeps its place, a new one goes last. *)
Fixpoint dict_set (d : list (string * V)) (k : string) (v : V)
    : list (string * V) :=
  match d with
  | [] => [(k, v)]
  | (k', v') :: d' =>
      if String.eqb k k' then (k', v) :: d' else (k', v') :: dict_set d' k v
  end.

Definition dict_mem (d : list (string * V)) (k : string) : bool :=
  match dict_get d k with Some _ => true | None => false end.

(** [{**a, **b}]. *)
Definition dict_merge (a b : list (string * V)) : list (string * V) :=
  fold_left (fun acc kv => dict_set acc (fst kv) (snd kv)) b a.
End Alist.

Definition Z_of_bool (b : bool) : Z := if b then 1 else 0.

(** Python's [==]. *)
Fixpoint py_eq (a b : value) {struct a} : bool :=
  match a, b with
  | VNone, VNone => true
  | VBool x, VBool y => Bool.eqb x y
  | VBool x, VInt y => Z.eqb (Z_of_bool x) y
  | VInt x, VBool y => Z.eqb x (Z_of_bool y)
  | VInt x, VInt y => Z.eqb x y
  | VStr x, VStr y => String.eqb x y
  | VList x, VList y =>
      (fix all2 (x y : list value) {struct x} : bool :=
         match x, y with
         | [], [] => true
         | u :: x', v :: y' => py_eq u v && all2 x' y'
         | _, _ => false
         end) x y
  | VDict x, VDict y =>
      Nat.eqb (length x) (length y) &&
      (fix sub (x : dict) {struct x} : bool :=
         match x with
         | [] => true
         | (k, u) :: x' =>
             match dict_get y k with
             | Some v => py_eq u v && sub x'
             | None => false
             end
         end) x
  | VObj n, VObj m => Nat.eqb n m
  | _, _ => false
  end.

(** Python's [<]: numbers, strings and lists are ordered, the other
    pairs raise [TypeError]. *)
Fixpoint py_lt (a b : value) {struct a} : result bool :=
  match a, b with
  | VBool x, VBool y => Ok (Z.ltb (Z_of_bool x) (Z_of_bool y))
  | VBool x, VInt y => Ok (Z.ltb (Z_of_bool x) y)
  | VInt x, VBool y => Ok (Z.ltb x (Z_of_bool y))
  | VInt x, VInt y => Ok (Z.ltb x y)
  | VStr x, VStr y => Ok (String.ltb x y)
  | VList x, VList y =>
      (fix lex (x y : list value) {struct x} : result bool :=
         match x, y with
         | [], [] => Ok false
         | [], _ :: _ => Ok true
         | _ :: _, [] => Ok false
         | u :: x', v :: y' => if py_eq u v then lex x' y' else py_lt u v
         end) x y
  | _, _ => Raise TypeError
  end.

(** [a + 1]. *)
Definition py_add1 (a : value) : result value :=
  match a with
  | VInt x => Ok (VInt (x + 1))
  | VBool x => Ok (VInt (Z_of_bool x + 1))
  | _ => Raise TypeError
  end.

Fixpoint str_contains (needle hay : string) : bool :=
  String.prefix needle hay ||
  match hay with
  | EmptyString => false
  | String _ hay' => str_contains needle hay'
  end.

(** [k in c] for a string [k]. *)
Definition py_contains (c : value) (k : string) : result bool :=
  match c with
  | VDict d => Ok (dict_mem d k)
  | VList l => Ok (existsb (fun v => py_eq v (VStr k)) l)
  | VStr s => Ok (str_contains k s)
  | _ => Raise TypeError
  end.

(** [c[k]] for a string [k]. *)
Definition py_getitem (c : value) (k : string) : result value :=
  match c with
  | VDict d =>
      match dict_get d k with
      | Some v => Ok v
      | None => Raise (KeyError k)
      end
  | _ => Raise TypeError
  end.

(** [c[k] = v] for a string [k]; the result is the container after
    the assignment. *)
Definition py_setitem (c : value) (k : string) (v : value) : result value :=
  match c with
  | VDict d => Ok (VDict (dict_set d k v))
  | _ => Raise TypeError
  end.

(** [c.get(k, default)]. *)
Definition py_get (c : value) (k : string) (default : value) : result value :=
  match c with
  | VDict d =>
      match dict_get d k with
      | Some v => Ok v
      | None => Ok default
      end
  | _ => Raise AttributeError
  end.

(** [c.append(v)]. *)
Definition py_append (c : value) (v : value) : result value :=
  match c with
  | VList l => Ok (VList (l ++ [v]))
  | _ => Raise AttributeError
  end.

(** Truth value of an [Optional[int]] argument. *)
Definition truthy (t : option Z) : bool :=
  match t with
  | None => false
  | Some z => negb (Z.eqb z 0)
  end.

End Py.

(** ** [json.dump(state, f, indent=2, ensure_ascii=False)] *)

Module Json.
Import Py.

Definition dquote : ascii := "034"%char.
Definition newline : ascii := "010"%char.
Definition chr (c : ascii) : string := String c EmptyString.

Definition hex_digit (n : N) : ascii :=
  match n with
  | 0%N => "0" | 1%N => "1" | 2%N => "2" | 3%N => "3"
  | 4%N => "4" | 5%N => "5" | 6%N => "6" | 7%N => "7"
  | 8%N => "8" | 9%N => "9" | 10%N => "a" | 11%N => "b"
  | 12%N => "c" | 13%N => "d" | 14%N => "e" | _ => "f"
  end%char.

(** The replacement of one character in a string literal: the two
    characters with a short escape, the named control characters, the
    other characters below 0x20 as a four-digit escape, and every other
    character as it is ([ensure_ascii=False]). *)
Definition escape_char (c : ascii) : string :=
  let n := N_of_ascii c in
  if Ascii.eqb c dquote then String "\" (chr dquote)
  else if Ascii.eqb c "\" then "\\"
  else if N.eqb n 8 then "\b"
  else if N.eqb n 12 then "\f"
  else if N.eqb n 10 then "\n"
  else if N.eqb n 13 then "\r"
  else if N.eqb n 9 then "\t"
  else if N.ltb n 32 then
    "\u00" ++ chr (hex_digit (N.div n 16)) ++ chr (hex_digit (N.modulo n 16))
  else chr c.

Fixpoint escape (s : string) : string :=
  match s with
  | EmptyString => EmptyString
  | String c s' => escape_char c ++ escape s'
  end.

Definition encode_basestring (s : string) : string :=
  chr dquote ++ escape s ++ chr dquote.

Definition intstr (z : Z) : string :=
  DecimalString.NilZero.string_of_int (Z.to_int z).

Fixpoint spaces (n : nat) : string :=
  match n with
  | O => EmptyString
  | S n' => String " " (spaces n')
  end.

(** A newline and the indentation of nesting level [lvl]. *)
Definition newline_indent (lvl : nat) : string :=
  String newline (spaces (2 * lvl)).

(** What an encoder has written, and whether it ran to its end: the
    chunks are written to the file as they are produced, so the text
    produced before a [TypeError] is in the file. *)
Definition written := (string * bool)%type.

Definition emit (s : string) : written := (s, true).
Definition fail_encoding : written := (EmptyString, false).

Definition and_then (a b : written) : written :=
  if snd a then (fst a ++ fst b, snd b) else a.

Fixpoint iterencode (lvl : nat) (o : value) {struct o} : written :=
  match o with
  | VStr s => emit (encode_basestring s)
  | VNone => emit "null"
  | VBool true => emit "true"
  | VBool false => emit "false"
  | VInt z => emit (intstr z)
  | VList [] => emit "[]"
  | VList ((_ :: _) as l) =>
      and_then (emit ("[" ++ newline_indent (S lvl)))
        ((fix items (l : list value) {struct l} : written :=
            match l with
            | [] => emit (newline_indent lvl ++ "]")
            | v :: l' =>
                and_then (iterencode (S lvl) v)
                  (match l' with
                   | [] => items l'
                   | _ :: _ =>
                       and_then (emit ("," ++ newline_indent (S lvl))) (items l')
                   end)
            end) l)
  | VDict [] => emit "{}"
  | VDict ((_ :: _) as d) =>
      and_then (emit ("{" ++ newline_indent (S lvl)))
        ((fix items (d : dict) {struct d} : written :=
            match d with
            | [] => emit (newline_indent lvl ++ "}")
            | (k, v) :: d' =>
                and_then (emit (encode_basestring k ++ ": "))
                  (and_then (iterencode (S lvl) v)
                     (match d' with
                      | [] => items d'
                      | _ :: _ =>
                          and_then (emit ("," ++ newline_indent (S lvl)))
                            (items d')
                      end))
            end) d)
  | VObj _ => fail_encoding
  end.

(** The two loops of [iterencode], by name: the items of a list and
    of a dict from some item on, and the closing bracket. *)
Fixpoint encode_elems (lvl : nat) (l : list value) : written :=
  match l with
  | [] => emit (newline_indent lvl ++ "]")
  | v :: l' =>
      and_then (iterencode (S lvl) v)
        (match l' with
         | [] => encode_elems lvl l'
         | _ :: _ =>
             and_then (emit ("," ++ newline_indent (S lvl)))
               (encode_elems lvl l')
         end)
  end.

Fixpoint encode_members (lvl : nat) (d : dict) : written :=
  match d with
  | [] => emit (newline_indent lvl ++ "}")
  | (k, v) :: d' =>
      and_then (emit (encode_basestring k ++ ": "))
        (and_then (iterencode (S lvl) v)
           (match d' with
            | [] => encode_members lvl d'
            | _ :: _ =>
                and_then (emit ("," ++ newline_indent (S lvl)))
                  (encode_members lvl d')
            end))
  end.

(** The text of a whole document. *)
Definition json_dumps (o : value) : string := fst (iterencode 0 o).

(** No object without a JSON form occurs in the value. *)
Fixpoint serialisable (o : value) : bool :=
  match o with
  | VList l =>
      (fix all (l : list value) : bool :=
         match l with
         | [] => true
         | v :: l' => serialisable v && all l'
         end) l
  | VDict d =>
      (fix all (d : dict) : bool :=
         match d with
         | [] => true
         | (_, v) :: d' => serialisable v && all d'
         end) d
  | VObj _ => false
  | _ => true
  end.

Fixpoint all_serialisable (l : list value) : bool :=
  match l with
  | [] => true
  | v :: l' => serialisable v && all_serialisable l'
  end.

(** *** A decoder for the integer fragment of JSON

    [json.loads] restricted to documents without fractional numbers
    and without escapes of characters above 0x7f.  The state manager
    is verified for an arbitrary decoder; this one runs the examples. *)

Definition is_ws (c : ascii) : bool :=
  let n := N_of_ascii c in
  N.eqb n 32 || N.eqb n 9 || N.eqb n 10 || N.eqb n 13.

Fixpoint skip_ws (s : string) : string :=
  match s with
  | String c s' => if is_ws c then skip_ws s' else s
  | EmptyString => s
  end.

Definition digit_of (c : ascii) : option Z :=
  let n := N_of_ascii c in
  if N.leb 48 n && N.leb n 57 then Some (Z.of_N n - 48) else None.

Definition hex_of (c : ascii) : option N :=
  let n := N_of_ascii c in
  if N.leb 48 n && N.leb n 57 then Some (n - 48)%N
  else if N.leb 97 n && N.leb n 102 then Some (n - 87)%N
  else if N.leb 65 n && N.leb n 70 then Some (n - 55)%N
  else None.

Fixpoint parse_digits (acc : Z) (s : string) : Z * string :=
  match s with
  | String c s' =>
      match digit_of c with
      | Some d => parse_digits (10 * acc + d) s'
      | None => (acc, s)
      end
  | EmptyString => (acc, s)
  end.

(** The digits of an integer; a fraction or an exponent after them
    makes the number a float, which is outside the fragment. *)
Definition parse_nat (s : string) : option (Z * string) :=
  match s with
  | String c s' =>
      match digit_of c with
      | None => None
      | Some d =>
          let (n, rest) := if Z.eqb d 0 then (0, s') else parse_digits d s' in
          match rest with
          | String c' _ =>
              if Ascii.eqb c' "." || Ascii.eqb c' "e" || Ascii.eqb c' "E"
              then None else Some (n, rest)
          | EmptyString => Some (n, rest)
          end
      end
  | EmptyString => None
  end.

Definition parse_int (s : string) : option (Z * string) :=
  match s with
  | String "-" s' =>
      match parse_nat s' with
      | Some (n, rest) => Some (- n, rest)
      | None => None
      end
  | _ => parse_nat s
  end.

Definition unescape (c : ascii) : option ascii :=
  if Ascii.eqb c dquote then Some dquote
  else if Ascii.eqb c "\" then Some "\"%char
  else if Ascii.eqb c "/" then Some "/"%char
  else if Ascii.eqb c "b" then Some "008"%char
  else if Ascii.eqb c "f" then Some "012"%char
  else if Ascii.eqb c "n" then Some "010"%char
  else if Ascii.eqb c "r" then Some "013"%char
  else if Ascii.eqb c "t" then Some "009"%char
  else None.

(** The characters after an opening quote, up to the closing one. *)
Fixpoint parse_string (s : string) : option (string * string) :=
  match s with
  | EmptyString => None
  | String c s' =>
      if Ascii.eqb c dquote then Some (EmptyString, s')
      else if Ascii.eqb c "\" then
        match s' with
        | String "u" (String h1 (String h2 (String h3 (String h4 s'')))) =>
            match hex_of h1, hex_of h2, hex_of h3, hex_of h4 with
            | Some 0%N, Some 0%N, Some a, Some b =>
                if N.ltb a 8 then
                  match parse_string s'' with
                  | Some (str, rest) =>
                      Some (String (ascii_of_N (16 * a + b)) str, rest)
                  | None => None
                  end
                else None
            | _, _, _, _ => None
            end
        | String e s'' =>
            match unescape e, parse_string s'' with
            | Some c', Some (str, rest) => Some (String c' str, rest)
            | _, _ => None
            end
        | EmptyString => None
        end
      else if N.ltb (N_of_ascii c) 32 then None
      else
        match parse_string s' with
        | Some (str, rest) => Some (String c str, rest)
        | None => None
        end
  end.

Definition strip_prefix (p s : string) : option string :=
  if String.prefix p s
  then Some (String.substring (String.length p)
               (String.length s - String.length p) s)
  else None.

(** [parse_value] reads a value at the head of [s]; [parse_elems] and
    [parse_members] read the rest of an array or of an object whose
    first values are [acc]. *)
Fixpoint parse_value (fuel : nat) (s : string) {struct fuel}
    : option (value * string) :=
  match fuel with
  | O => None
  | S fuel' =>
      match s with
      | EmptyString => None
      | String c s' =>
          if Ascii.eqb c dquote then
            match parse_string s' with
            | Some (str, rest) => Some (VStr str, rest)
            | None => None
            end
          else if Ascii.eqb c "[" then
            match skip_ws s' with
            | String "]" rest => Some (VList [], rest)
            | s1 => parse_elems fuel' [] s1
            end
          else if Ascii.eqb c "{" then
            match skip_ws s' with
            | String "}" rest => Some (VDict [], rest)
            | s1 => parse_members fuel' [] s1
            end
          else
            match strip_prefix "null" s, strip_prefix "true" s,
                  strip_prefix "false" s with
            | Some rest, _, _ => Some (VNone, rest)
            | _, Some rest, _ => Some (VBool true, rest)
            | _, _, Some rest => Some (VBool false, rest)
            | _, _, _ =>
                match parse_int s with
                | Some (z, rest) => Some (VInt z, rest)
                | None => None
                end
            end
      end
  end
with parse_elems (fuel : nat) (acc : list value) (s : string) {struct fuel}
    : option (value * string) :=
  match fuel with
  | O => None
  | S fuel' =>
      match parse_value fuel' s with
      | None => None
      | Some (v, rest) =>
          match skip_ws rest with
          | String "," rest' => parse_elems fuel' (acc ++ [v]) (skip_ws rest')
          | String "]" rest' => Some (VList (acc ++ [v]), rest')
          | _ => None
          end
      end
  end
with parse_members (fuel : nat) (acc : dict) (s : string) {struct fuel}
    : option (value * string) :=
  match fuel with
  | O => None
  | S fuel' =>
      match s with
      | String c s' =>
          if Ascii.eqb c dquote then
            match parse_string s' with
            | None => None
            | Some (key, rest) =>
                match skip_ws rest with
                | String ":" rest' =>
                    match parse_value fuel' (skip_ws rest') with
                    | None => None
                    | Some (v, rest'') =>
                        match skip_ws rest'' with
                        | String "," r =>
                            parse_members fuel' (dict_set acc key v) (skip_ws r)
                        | String "}" r => Some (VDict (dict_set acc key v), r)
                        | _ => None
                        end
                    end
                | _ => None
                end
            end
          else None
      | EmptyString => None
      end
  end.

Definition loads (s : string) : option value :=
  match parse_value (2 * String.length s + 2) (skip_ws s) with
  | Some (v, rest) =>
      match skip_ws rest with
      | EmptyString => Some v
      | _ => None
      end
  | None => None
  end.

End Json.

(** ** [state_manager.py] *)

Module Status.
Definition INIT := "INIT".
Definition DESIGNING := "DESIGNING".
Definition DESIGNED := "DESIGNED".
Definition IMPLEMENTING := "IMPLEMENTING".
Definition TESTING := "TESTING".
Definition RETRYING := "RETRYING".
Definition ESCALATING := "ESCALATING".
Definition REVIEWING := "REVIEWING".
Definition COMPLETED := "COMPLETED".
Definition FAILED := "FAILED".
End Status.

Module StateManager.
Import Py Json.

(** The directory [runs_dir/task_id]: missing, or present with or
    without a [state.json], whose text is kept as written. *)
Inductive node : Type :=
| Missing
| Directory (state_json : option string).

(** [ticks] counts the readings of the clock. *)
Record world : Type := mkWorld { task_dir : node; ticks : nat }.

(** A method: it returns or raises, and in both cases leaves a world. *)
Definition M (A : Type) : Type := world -> result A * world.

Definition ret {A} (a : A) : M A := fun w => (Ok a, w).
Definition raise {A} (e : exn) : M A := fun w => (Raise e, w).
Definition bind {A B} (c : M A) (k : A -> M B) : M B :=
  fun w =>
    match c w with
    | (Ok a, w') => k a w'
    | (Raise e, w') => (Raise e, w')
    end.
Definition lift {A} (r : result A) : M A := fun w => (r, w).

Declare Scope py_scope.
Delimit Scope py_scope with py.
Notation "x <- c ;; k" := (bind c (fun x => k))
  (at level 100, c at next level, right associativity) : py_scope.
Notation "c ;; k" := (bind c (fun _ => k))
  (at level 100, right associativity) : py_scope.
Local Open Scope py_scope.

(** In-place mutation [f] of the object [c[k1]...[kn]]: the objects
    on the path are rebuilt around the mutated one.  The record is a
    tree (it comes from a literal or from [json.load]), so no other
    reference sees the mutation. *)
Fixpoint at_path (c : value) (path : list string)
    (f : value -> result value) : result value :=
  match path with
  | [] => f c
  | k :: path' =>
      match py_getitem c k with
      | Raise e => Raise e
      | Ok x =>
          match at_path x path' f with
          | Raise e => Raise e
          | Ok x' => py_setitem c k x'
          end
      end
  end.

Definition mkdir : M unit :=
  fun w =>
    (Ok tt,
     mkWorld (match task_dir w with
              | Missing => Directory None
              | Directory f => Directory f
              end) (ticks w)).

Definition state_file_exists : M bool :=
  fun w =>
    (Ok (match task_dir w with
         | Directory (Some _) => true
         | _ => false
         end), w).

(** [open(state_file, "w")]: the file is created or emptied. *)
Definition open_w : M unit :=
  fun w =>
    match task_dir w with
    | Missing => (Raise OSError, w)
    | Directory _ => (Ok tt, mkWorld (Directory (Some EmptyString)) (ticks w))
    end.

(** [f.write(chunk)] for the chunks of a text. *)
Definition write (text : string) : M unit :=
  fun w =>
    match task_dir w with
    | Directory (Some old) =>
        (Ok tt, mkWorld (Directory (Some (old ++ text))) (ticks w))
    | _ => (Raise OSError, w)
    end.

(** [json.dump(state, f, indent=2, ensure_ascii=False)]: the chunks
    produced are written, then the encoder's [TypeError] is raised if
    it met an object it cannot encode. *)
Definition json_dump (state : value) : M unit :=
  let out := iterencode 0 state in
  write (fst out) ;;
  if snd out then ret tt else raise TypeError.

(** [open(state_file, "r")] and [f.read()]. *)
Definition read_text : M string :=
  fun w =>
    match task_dir w with
    | Directory (Some text) => (Ok text, w)
    | _ => (Raise OSError, w)
    end.

Definition step_order : list string :=
  ["design"; "test_cases"; "implementation"; "testing"; "review"].

Section Env.

(** [now n] is the [n]-th reading of the clock, as [_get_timestamp]
    formats it. *)
Variable now : nat -> string.

(** [json.loads]: [None] is its [JSONDecodeError]. *)
Variable json_loads : string -> option value.

Variable task_id : string.

Definition _get_timestamp : M string :=
  fun w => (Ok (now (ticks w)), mkWorld (task_dir w) (S (ticks w))).

(** The state that [save] writes: the given one, stamped. *)
Definition stamped (d : dict) (w : world) : value :=
  VDict (dict_set d "updated_at" (VStr (now (ticks w)))).

(** [save] returns the state it was given, after its own mutation of
    it ([updated_at]): the caller's reference sees that mutation. *)
Definition save (state : value) : M value :=
  mkdir ;;
  ts <- _get_timestamp ;;
  state <- lift (py_setitem state "updated_at" (VStr ts)) ;;
  open_w ;;
  json_dump state ;;
  ret state.

Definition init_state (max_retries : Z) : M value :=
  mkdir ;;
  timestamp <- _get_timestamp ;;
  let state :=
    VDict
      [ ("task_id", VStr task_id);
        ("status", VStr Status.INIT);
        ("created_at", VStr timestamp);
        ("updated_at", VStr timestamp);
        ("steps",
          VDict
            [ ("design", VDict [("status", VStr "pending")]);
              ("test_cases", VDict [("status", VStr "pending")]);
              ("implementation",
                VDict [("status", VStr "pending"); ("attempt", VInt 0)]);
              ("testing",
                VDict [("status", VStr "pending"); ("results", VList [])]);
              ("review", VDict [("status", VStr "pending")]) ]);
        ("escalation", VDict [("count", VInt 0); ("history", VList [])]);
        ("retry_count", VInt 0);
        ("max_retries", VInt max_retries) ] in
  save state.

Definition load : M value :=
  present <- state_file_exists ;;
  if negb present then init_state 3
  else
    text <- read_text ;;
    match json_loads text with
    | Some state => ret state
    | None => raise JSONDecodeError
    end.

Definition update_status (new_status : string) : M value :=
  state <- load ;;
  state <- lift (py_setitem state "status" (VStr new_status)) ;;
  save state.

(** The loop [for key, value in kwargs.items()]. *)
Fixpoint merge_fields (step_name : string) (kwargs : dict) (state : value)
    : result value :=
  match kwargs with
  | [] => Ok state
  | (key, v) :: kwargs' =>
      match at_path state ["steps"; step_name]
              (fun r => py_setitem r key v) with
      | Raise e => Raise e
      | Ok state' => merge_fields step_name kwargs' state'
      end
  end.

Definition update_step (step_name : string) (kwargs : dict) : M value :=
  state <- load ;;
  steps <- lift (py_getitem state "steps") ;;
  present <- lift (py_contains steps step_name) ;;
  state <-
    (if negb present
     then lift (at_path state ["steps"]
                  (fun s => py_setitem s step_name (VDict [])))
     else ret state) ;;
  state <- lift (merge_fields step_name kwargs state) ;;
  save state.

Definition increment_retry : M value :=
  state <- load ;;
  n <- lift (py_get state "retry_count" (VInt 0)) ;;
  n <- lift (py_add1 n) ;;
  state <- lift (py_setitem state "retry_count" n) ;;
  save state.

Definition escalation_entry (timestamp reason : string)
    (response : option string) : value :=
  let entry := [("timestamp", VStr timestamp); ("reason", VStr reason)] in
  VDict
    match response with
    | Some r => dict_set entry "response" (VStr r)
    | None => entry
    end.

Definition add_escalation (reason : string) (response : option string)
    : M value :=
  state <- load ;;
  timestamp <- _get_timestamp ;;
  let entry := escalation_entry timestamp reason response in
  escalation <- lift (py_getitem state "escalation") ;;
  n <- lift (py_get escalation "count" (VInt 0)) ;;
  n <- lift (py_add1 n) ;;
  state <- lift (at_path state ["escalation"]
                   (fun e => py_setitem e "count" n)) ;;
  state <- lift (at_path state ["escalation"; "history"]
                   (fun h => py_append h entry)) ;;
  save state.

(** One of the two loops of [get_current_step]: the first step of
    the order that is in [steps] with the status looked for. *)
Fixpoint find_step (wanted : string) (order : list string) (state : value)
    : result (option string) :=
  match order with
  | [] => Ok None
  | step_name :: order' =>
      match py_getitem state "steps" with
      | Raise e => Raise e
      | Ok steps =>
          match py_contains steps step_name with
          | Raise e => Raise e
          | Ok false => find_step wanted order' state
          | Ok true =>
              match py_getitem steps step_name with
              | Raise e => Raise e
              | Ok record =>
                  match py_get record "status" VNone with
                  | Raise e => Raise e
                  | Ok status =>
                      if py_eq status (VStr wanted) then Ok (Some step_name)
                      else find_step wanted order' state
                  end
              end
          end
      end
  end.

Definition get_current_step : M string :=
  state <- load ;;
  found <- lift (find_step "in_progress" step_order state) ;;
  match found with
  | Some step_name => ret step_name
  | None =>
      found <- lift (find_step "pending" step_order state) ;;
      match found with
      | Some step_name => ret step_name
      | None => ret (last step_order EmptyString)
      end
  end.

Definition can_retry : M bool :=
  state <- load ;;
  n <- lift (py_get state "retry_count" (VInt 0)) ;;
  m <- lift (py_get state "max_retries" (VInt 3)) ;;
  lift (py_lt n m).

Definition is_completed : M bool :=
  state <- load ;;
  s <- lift (py_get state "status" VNone) ;;
  ret (py_eq s (VStr Status.COMPLETED)).

Definition is_failed : M bool :=
  state <- load ;;
  s <- lift (py_get state "status" VNone) ;;
  ret (py_eq s (VStr Status.FAILED)).

(** The operations of the store, and what they answer. *)
Inductive op : Type :=
| InitState (max_retries : Z)
| Load
| Save (state : value)
| UpdateStatus (new_status : string)
| UpdateStep (step_name : string) (kwargs : dict)
| IncrementRetry
| AddEscalation (reason : string) (response : option string)
| GetCurrentStep
| CanRetry
| IsCompleted
| IsFailed.

Inductive answer : Type :=
| State (state : value)
| Step (step_name : string)
| Bool (b : bool).

Definition answering {A} (f : A -> answer) (c : M A) : M answer :=
  a <- c ;; ret (f a).

Definition run (o : op) : M answer :=
  match o with
  | InitState max_retries => answering State (init_state max_retries)
  | Load => answering State load
  | Save state => answering State (save state)
  | UpdateStatus new_status => answering State (update_status new_status)
  | UpdateStep step_name kwargs =>
      answering State (update_step step_name kwargs)
  | IncrementRetry => answering State increment_retry
  | AddEscalation reason response =>
      answering State (add_escalation reason response)
  | GetCurrentStep => answering Step get_current_step
  | CanRetry => answering Bool can_retry
  | IsCompleted => answering Bool is_completed
  | IsFailed => answering Bool is_failed
  end.

End Env.

(** *** The vocabulary of the specification *)

(** The text of [state.json], if there is one. *)
Definition state_file (w : world) : option string :=
  match task_dir w with
  | Directory f => f
  | Missing => None
  end.

(** [escalation.count] is the length of [escalation.history]. *)
Definition escalation_consistent (state : value) : Prop :=
  exists d esc history,
    state = VDict d /\
    dict_get d "escalation" = Some (VDict esc) /\
    dict_get esc "count" = Some (VInt (Z.of_nat (length history))) /\
    dict_get esc "history" = Some (VList history).

(** The record in the file, when it decodes, is consistent. *)
Definition persisted_consistent (json_loads : string -> option value)
    (w : world) : Prop :=
  forall text state,
    state_file w = Some text -> json_loads text = Some state ->
    escalation_consistent state.

(** What holds after an operation: a returned state is consistent, and
    the file is as before or holds a consistent record. *)
Definition consistent_after (w : world) (a : answer) (w' : world) : Prop :=
  (forall state, a = State state -> escalation_consistent state) /\
  (state_file w' = state_file w \/
   exists state, escalation_consistent state /\
                 state_file w' = Some (json_dumps state)).

(** The entry of the history as the specification words it: the time,
    the reason, and the response when one is given. *)
Definition history_entry (timestamp reason : string)
    (response : option string) : value :=
  VDict ([("timestamp", VStr timestamp); ("reason", VStr reason)]
         ++ match response with
            | Some r => [("response", VStr r)]
            | None => []
            end)%list.

(** The step [name] of [steps] has the status [wanted]. *)
Definition has_status (steps : dict) (wanted name : string) : bool :=
  match dict_get steps name with
  | Some (VDict record) =>
      match dict_get record "status" with
      | Some (VStr s) => String.eqb s wanted
      | _ => false
      end
  | _ => false
  end.

(** The current step as the specification words it: the first step of
    the fixed order that is in progress, else the first that is
    pending, else the last step. *)
Definition current_step (steps : dict) : string :=
  match find (has_status steps "in_progress") step_order with
  | Some name => name
  | None =>
      match find (has_status steps "pending") step_order with
      | Some name => name
      | None => "review"
      end
  end.

(** The fields merged into a step record as the specification words
    it: a given key has the given value, another key keeps its own. *)
Definition merged (record fields : dict) (k : string) : option value :=
  match dict_get fields k with
  | Some v => Some v
  | None => dict_get record k
  end.

(** The record of a step before an update: its own, or an empty one. *)
Definition record_of (steps : dict) (step_name : string) : dict :=
  match dict_get steps step_name with
  | Some (VDict record) => record
  | _ => []
  end.

(** An integer field with a default for its absence. *)
Definition int_field (d : dict) (k : string) (default z : Z) : Prop :=
  match dict_get d k with
  | None => z = default
  | Some v => v = VInt z
  end.

(** The claim that a save is atomic, at one state and one world: the
    file holds afterwards the previous text or the complete new
    record, and the previous text if the save failed. *)
Definition save_is_atomic (now : nat -> string) (state : value) (w : world)
    : Prop :=
  let out := save now state w in
  (state_file (snd out) = state_file w \/
   exists state', fst out = Ok state' /\
                  state_file (snd out) = Some (json_dumps state')) /\
  (forall e, fst out = Raise e -> state_file (snd out) = state_file w).

(** [partial] is the beginning of [full], and not all of it. *)
Definition cut_short (partial full : string) : Prop :=
  exists rest, rest <> EmptyString /\ full = partial ++ rest.

(** Every object without a JSON form replaced by one that has one. *)
Fixpoint patch (f : nat -> value) (o : value) : value :=
  match o with
  | VList l => VList (map (patch f) l)
  | VDict d => VDict (map (fun kv => (fst kv, patch f (snd kv))) d)
  | VObj n => f n
  | _ => o
  end.

End StateManager.

(** ** Sample data *)

Module Sample.
Import Py Json StateManager.

Definition clock (n : nat) : string :=
  "2024-05-01T12:00:0" ++ intstr (Z.of_nat n) ++ "Z".

Definition task : string := "task-001".

Definition empty_world : world := mkWorld Missing 0.

(** The world after the first [load] of the task. *)
Definition fresh_world : world := snd (load clock Json.loads task empty_world).

Definition fresh_state : value :=
  match fst (load clock Json.loads task empty_world) with
  | Ok state => state
  | Raise _ => VNone
  end.

Definition fresh_dict : dict :=
  match fresh_state with
  | VDict d => d
  | _ => []
  end.

(** A state whose design step carries a path object. *)
Definition state_with_path : value :=
  match at_path fresh_state ["steps"; "design"]
          (fun r => py_setitem r "output" (VObj 0)) with
  | Ok state => state
  | Raise _ => VNone
  end.

Definition path_dict : dict :=
  match state_with_path with
  | VDict d => d
  | _ => []
  end.

Definition dict_of (state : value) : dict :=
  match state with
  | VDict d => d
  | _ => []
  end.

Definition text_of (w : world) : string :=
  match state_file w with
  | Some text => text
  | None => EmptyString
  end.

(** The record in the file of a world. *)
Definition record_of_world (w : world) : dict :=
  match Json.loads (text_of w) with
  | Some state => dict_of state
  | None => []
  end.

Definition steps_of_world (w : world) : dict :=
  match dict_get (record_of_world w) "steps" with
  | Some steps => dict_of steps
  | None => []
  end.

Definition escalation_of_world (w : world) : dict :=
  match dict_get (record_of_world w) "escalation" with
  | Some e => dict_of e
  | None => []
  end.

Definition history_of_world (w : world) : list value :=
  match dict_get (escalation_of_world w) "history" with
  | Some (VList h) => h
  | _ => []
  end.

Definition completed : dict := [("status", VStr "completed")].

(** The world after design and test cases are completed and the
    implementation has begun. *)
Definition progress_world : world :=
  let w1 := snd (update_step clock Json.loads task "design" completed
                   fresh_world) in
  let w2 := snd (update_step clock Json.loads task "test_cases" completed
                   w1) in
  snd (update_step clock Json.loads task "implementation"
         [("status", VStr "in_progress"); ("attempt", VInt 1)] w2).

(** The world after every step is completed. *)
Definition completed_world : world :=
  fold_left
    (fun w name => snd (update_step clock Json.loads task name completed w))
    step_order fresh_world.

(** The world after three retries. *)
Definition retried_world : world :=
  let retry w := snd (increment_retry clock Json.loads task w) in
  retry (retry (retry fresh_world)).

(** The world after a first escalation, without response. *)
Definition escalated_world : world :=
  snd (add_escalation clock Json.loads task "reason A" None fresh_world).

(** A world whose [state.json] was cut short. *)
Definition corrupt_world : world :=
  mkWorld (Directory (Some "{ broken")) 7.

End Sample.

(** ** [llm_client.py] *)

Module LLMClient.
Import Py Json.

(** The values of a configuration: [CDec m e] is the decimal literal
    [m * 10^e] of a float, as written ([0.7] is [CDec 7 (-1)]). *)
Inductive cval : Type :=
| CNone
| CInt (z : Z)
| CStr (s : string)
| CStrs (l : list string)
| CDec (m e : Z).

Definition config := list (string * cval).

Definition DEFAULT_CONFIGS : list (string * config) :=
  [ ("claude",
      [ ("command", CStrs ["claude"; "-p"]);
        ("args", CStrs ["--print"]);
        ("timeout", CInt 120) ]);
    ("gemini",
      [ ("command", CStrs ["gemini"; "-p"]);
        ("args", CStrs []);
        ("timeout", CInt 120) ]);
    ("lfm",
      [ ("url", CStr "http://localhost:8080/v1/chat/completions");
        ("model", CStr "LFM2.5-1.2B-Instruct");
        ("temperature", CDec 7 (-1));
        ("max_tokens", CInt 4096);
        ("timeout", CInt 60) ]) ].

Definition SUPPORTED_TYPES : list string := ["claude"; "gemini"; "lfm"].

Record client : Type := mkClient { llm_type : string; client_config : config }.

Definition __init__ (llm_type : string) (config : option config)
    : result client :=
  if negb (existsb (String.eqb llm_type) SUPPORTED_TYPES) then
    Raise (ValueError ("Unsupported LLM type: " ++ llm_type ++ ". "
                       ++ "Supported types: "
                       ++ String.concat ", " SUPPORTED_TYPES))
  else
    match dict_get DEFAULT_CONFIGS llm_type with
    | None => Raise (KeyError llm_type)
    | Some defaults =>
        Ok (mkClient llm_type
              (dict_merge defaults
                 (match config with Some c => c | None => [] end)))
    end.

Definition create_claude_client (config : option config) : result client :=
  __init__ "claude" config.
Definition create_gemini_client (config : option config) : result client :=
  __init__ "gemini" config.
Definition create_lfm_client (config : option config) : result client :=
  __init__ "lfm" config.

(** [self.config.get(k)]. *)
Definition config_get (c : client) (k : string) : cval :=
  match dict_get (client_config c) k with
  | Some v => v
  | None => CNone
  end.

(** [timeout or self.config.get("timeout")]. *)
Definition effective_timeout (c : client) (timeout : option Z) : cval :=
  match timeout with
  | Some z => if truthy timeout then CInt z else config_get c "timeout"
  | None => config_get c "timeout"
  end.

Definition nl : string := chr newline.

(** What [subprocess.run] does: the process ends, or one of the
    exceptions the two CLI methods tell apart is raised. *)
Inductive run_outcome : Type :=
| Completed (returncode : Z) (stdout stderr : string)
| TimeoutExpired
| FileNotFoundError
| RunFailed (e : string).

(** The request of [_invoke_lfm] and what the exchange gives: the
    content of the first choice, or one of the exceptions told apart. *)
Record chat_request : Type := mkRequest {
  req_model : cval;
  req_messages : list (string * string);
  req_temperature : cval;
  req_max_tokens : cval }.

Inductive http_outcome : Type :=
| Content (text : string)
| URLError (e : string)
| ResponseNotJSON (e : string)
| ResponseKeyError
| HTTPTimeout
| HTTPFailed (e : string).

Section Env.

(** [subprocess.run(command, capture_output=True, text=True,
    timeout=timeout)]. *)
Variable subprocess_run : list string -> cval -> run_outcome.

(** The [try] block of [_invoke_lfm]: the request to [url] with the
    given timeout and the reading of the answer. *)
Variable http_chat : cval -> chat_request -> cval -> http_outcome.

(** [str.strip] and the text of a value in an f-string. *)
Variable strip : string -> string.
Variable format : cval -> string.

(** [Path.exists], [Path.read_text] (or the text of its exception)
    and [Path.name]. *)
Variable path_exists : string -> bool.
Variable path_read_text : string -> string + string.
Variable path_name : string -> string.

(** [list(v)] for a configured command or argument list. *)
Definition as_list (v : cval) : result (list string) :=
  match v with
  | CStrs l => Ok l
  | CStr s => Ok (map chr (list_ascii_of_string s))
  | _ => Raise TypeError
  end.

Definition with_system (system : option string) (prompt : string) : string :=
  match system with
  | Some (String c s) =>
      "System: " ++ String c s ++ nl ++ nl ++ "User: " ++ prompt
  | _ => prompt
  end.

(** The body shared by [_invoke_claude] and [_invoke_gemini], which
    differ by the name in their messages.  The [LLMError] of a
    non-zero exit is raised inside the [try] and caught by its last
    clause. *)
Definition invoke_cli (name cli : string) (c : client) (prompt : string)
    (system : option string) (timeout : cval) : result string :=
  match dict_get (client_config c) "command" with
  | None => Raise (KeyError "command")
  | Some cmd =>
      match as_list cmd with
      | Raise e => Raise e
      | Ok command =>
          match as_list (match dict_get (client_config c) "args" with
                         | Some a => a
                         | None => CStrs []
                         end) with
          | Raise e => Raise e
          | Ok args =>
              match subprocess_run
                      (command ++ [with_system system prompt] ++ args)%list
                      timeout with
              | Completed rc out err =>
                  if negb (Z.eqb rc 0) then
                    Raise (LLMError
                             ("Failed to invoke " ++ name ++ ": "
                              ++ name ++ " CLI failed: "
                              ++ match err with
                                 | EmptyString => "Unknown error"
                                 | _ => strip err
                                 end))
                  else Ok (strip out)
              | TimeoutExpired =>
                  Raise (LLMError (name ++ " CLI timed out after "
                                   ++ format timeout ++ " seconds"))
              | FileNotFoundError =>
                  Raise (LLMError (name ++ " CLI not found. Is '" ++ cli
                                   ++ "' installed and in PATH?"))
              | RunFailed e =>
                  Raise (LLMError ("Failed to invoke " ++ name ++ ": " ++ e))
              end
          end
      end
  end.

Definition _invoke_claude := invoke_cli "Claude" "claude".
Definition _invoke_gemini := invoke_cli "Gemini" "gemini".

Definition _invoke_lfm (c : client) (prompt : string)
    (system : option string) (timeout : cval) : result string :=
  match dict_get (client_config c) "url",
        dict_get (client_config c) "model",
        dict_get (client_config c) "temperature",
        dict_get (client_config c) "max_tokens" with
  | None, _, _, _ => Raise (KeyError "url")
  | _, None, _, _ => Raise (KeyError "model")
  | _, _, None, _ => Raise (KeyError "temperature")
  | _, _, _, None => Raise (KeyError "max_tokens")
  | Some url, Some model, Some temperature, Some max_tokens =>
      let messages :=
        (match system with
         | Some (String ch s) => [("system", String ch s)]
         | _ => []
         end ++ [("user", prompt)])%list in
      match http_chat url
              (mkRequest model messages temperature max_tokens)
              timeout with
      | Content text => Ok text
      | URLError e =>
          Raise (LLMError ("Failed to connect to LFM server at "
                           ++ format url ++ ": " ++ e ++ ". "
                           ++ "Is llama-server running?"))
      | ResponseNotJSON e =>
          Raise (LLMError ("Failed to parse LFM response: " ++ e))
      | ResponseKeyError =>
          Raise (LLMError "Unexpected response format from LFM server")
      | HTTPTimeout =>
          Raise (LLMError ("LFM request timed out after "
                           ++ format timeout ++ " seconds"))
      | HTTPFailed e => Raise (LLMError ("Failed to invoke LFM: " ++ e))
      end
  end.

Definition invoke (c : client) (prompt : string) (system : option string)
    (timeout : option Z) : result string :=
  let effective_timeout := effective_timeout c timeout in
  if String.eqb (llm_type c) "claude" then
    _invoke_claude c prompt system effective_timeout
  else if String.eqb (llm_type c) "gemini" then
    _invoke_gemini c prompt system effective_timeout
  else if String.eqb (llm_type c) "lfm" then
    _invoke_lfm c prompt system effective_timeout
  else Raise (LLMError ("Unknown LLM type: " ++ llm_type c)).

(** The loop of [invoke_with_files] over the context files. *)
Fixpoint context_parts (files : list string) (parts : list string)
    : result (list string) :=
  match files with
  | [] => Ok parts
  | path :: files' =>
      if negb (path_exists path) then
        Raise (LLMError ("Context file not found: " ++ path))
      else
        match path_read_text path with
        | inl e =>
            Raise (LLMError ("Failed to read file " ++ path ++ ": " ++ e))
        | inr content =>
            context_parts files'
              (parts ++ [("--- File: " ++ path_name path ++ " ---" ++ nl
                          ++ content ++ nl
                          ++ "--- End of " ++ path_name path ++ " ---")%string]
              )%list
        end
  end.

Definition invoke_with_files (c : client) (prompt : string)
    (context_files : list string) (system : option string)
    (timeout : option Z) : result string :=
  match context_parts context_files [] with
  | Raise e => Raise e
  | Ok parts =>
      let full_prompt :=
        match parts with
        | _ :: _ =>
            "Context files:" ++ nl ++ nl
            ++ String.concat (nl ++ nl) parts
            ++ nl ++ nl ++ "User request:" ++ nl ++ prompt
        | [] => prompt
        end in
      invoke c full_prompt system timeout
  end.

End Env.

End LLMClient.

Module SampleClient.
Import Py LLMClient.

(** The client of [create_claude_client()]. *)
Definition claude : client :=
  mkClient "claude"
    [ ("command", CStrs ["claude"; "-p"]);
      ("args", CStrs ["--print"]);
      ("timeout", CInt 120) ].

End SampleClient.

(** ** Further vocabulary *)

Module StoreSpec.
Import Py Json StateManager.

(** The operations that work on the loaded record. *)
Definition needs_record (o : op) : bool :=
  match o with
  | InitState _ | Load | Save _ => false
  | _ => true
  end.

(** The values that [<] and [+] refuse whatever the other operand. *)
Definition unordered (v : value) : bool :=
  match v with
  | VNone | VDict _ | VObj _ => true
  | _ => false
  end.

Definition is_dict (v : value) : bool :=
  match v with
  | VDict _ => true
  | _ => false
  end.

(** The claim that [update_step] merges any fields, at one world, one
    step name and one mapping of fields: on the loaded record it returns
    and writes a state in which the record of the step has the fields
    merged, the other steps and the other fields but [updated_at] being
    as they were. *)
Definition merges_any_fields (now : nat -> string)
    (json_loads : string -> option value) (task_id : string)
    (w : world) (step_name : string) (kwargs : dict) : Prop :=
  forall w1 d steps,
    load now json_loads task_id w = (Ok (VDict d), w1) ->
    dict_get d "steps" = Some (VDict steps) ->
    exists d' steps' record',
      update_step now json_loads task_id step_name kwargs w =
        (Ok (VDict d'),
         mkWorld (Directory (Some (json_dumps (VDict d')))) (S (ticks w1))) /\
      dict_get d' "steps" = Some (VDict steps') /\
      dict_get steps' step_name = Some (VDict record') /\
      (forall k, dict_get record' k =
                 merged (record_of steps step_name) kwargs k) /\
      (forall name, name <> step_name ->
                    dict_get steps' name = dict_get steps name) /\
      (forall k, k <> "steps" -> k <> "updated_at" ->
                 dict_get d' k = dict_get d k).

End StoreSpec.

Module ClientSpec.
Import Py Json LLMClient.

(** The client with [timeout] configured. *)
Definition with_timeout (c : client) (t : Z) : client :=
  mkClient (llm_type c) (dict_set (client_config c) "timeout" (CInt t)).

(** A context file between its two labels. *)
Definition labelled (name content : string) : string :=
  "--- File: " ++ name ++ " ---" ++ nl ++ content ++ nl
  ++ "--- End of " ++ name ++ " ---".

(** The prompt after the context files. *)
Definition with_context (parts : list string) (prompt : string) : string :=
  "Context files:" ++ nl ++ nl ++ String.concat (nl ++ nl) parts
  ++ nl ++ nl ++ "User request:" ++ nl ++ prompt.

(** The configured values that [list] refuses. *)
Definition not_iterable (v : cval) : bool :=
  match v with
  | CStrs _ | CStr _ => false
  | _ => true
  end.

(** The configuration given to the constructor, as a dict. *)
Definition given (cfg : option config) : config :=
  match cfg with
  | Some c => c
  | None => []
  end.

(** A call returned, or raised [LLMError]. *)
Definition returns_or_llm_error (r : result string) : Prop :=
  (exists out, r = Ok out) \/ (exists msg, r = Raise (LLMError msg)).

End ClientSpec.

(** Sample collaborators: a process that answers, a server that does
    not, and two files of which the second is missing. *)
Module SampleRun.
Import Py Json LLMClient.

Definition subprocess_run (command : list string) (timeout : cval)
    : run_outcome :=
  Completed 0 "done" EmptyString.

Definition http_chat (url : cval) (request : chat_request) (timeout : cval)
    : http_outcome :=
  URLError "connection refused".

Definition strip (s : string) : string := s.

Definition format (v : cval) : string :=
  match v with
  | CInt z => intstr z
  | CStr s => s
  | _ => "None"
  end.

Definition path_exists (path : string) : bool := String.eqb path "a.py".

Definition path_read_text (path : string) : string + string :=
  inr "print(1)".

Definition path_name (path : string) : string := path.

End SampleRun.

(** Sample records that are not what the store writes. *)
Module SampleStore.
Import Py Json StateManager.

(** An object without any field. *)
Definition bare_world : world := mkWorld (Directory (Some "{}")) 0.

(** A list where an object is expected. *)
Definition list_world : world := mkWorld (Directory (Some "[]")) 0.

(** A record whose counters are [null]. *)
Definition null_record : dict :=
  [ ("retry_count", VNone);
    ("escalation", VDict [("count", VNone); ("history", VList [])]) ].

Definition null_world : world :=
  mkWorld (Directory (Some (json_dumps (VDict null_record)))) 0.

End SampleStore.

(** * Facts *)

(** ** Dicts and values *)

Section DictFacts.
Import Py.
Context {V : Type}.
Implicit Types (d : list (string * V)) (k : string) (v : V).

Lemma dict_get_set_same d k v : dict_get (dict_set d k v) k = Some v.
Proof.
  induction d as [|[k' v'] d IH]; simpl.
  - now rewrite String.eqb_refl.
  - destruct (String.eqb k k') eqn:E; simpl; rewrite E; auto.
Qed.

Lemma dict_get_set_other d k k' v :
  k' <> k -> dict_get (dict_set d k v) k' = dict_get d k'.
Proof.
  intros Hne. induction d as [|[k0 v0] d IH]; simpl.
  - destruct (String.eqb_spec k' k); congruence.
  - destruct (String.eqb_spec k k0) as [->|Hk]; simpl.
    + destruct (String.eqb_spec k' k0); congruence.
    + now rewrite IH.
Qed.

Lemma dict_mem_true d k :
  dict_mem d k = true -> exists v, dict_get d k = Some v.
Proof. unfold dict_mem. destruct (dict_get d k); eauto; discriminate. Qed.

Lemma dict_mem_false d k : dict_mem d k = false -> dict_get d k = None.
Proof. unfold dict_mem. destruct (dict_get d k); auto; discriminate. Qed.

Lemma dict_get_In d k v : dict_get d k = Some v -> In (k, v) d.
Proof.
  induction d as [|[k' v'] d IH]; simpl; [discriminate|].
  destruct (String.eqb_spec k k') as [->|]; intros H.
  - left. congruence.
  - right. auto.
Qed.

(** The keys of a dict after an assignment: the same, or one more. *)
Lemma dict_set_keys d k v :
  map fst (dict_set d k v) =
  if dict_mem d k then map fst d else (map fst d ++ [k])%list.
Proof.
  unfold dict_mem. induction d as [|[k' v'] d IH]; simpl; auto.
  destruct (String.eqb_spec k k'); simpl; auto.
  rewrite IH. destruct (dict_get d k); reflexivity.
Qed.

Lemma dict_set_set d k v v' :
  dict_set (dict_set d k v) k v' = dict_set d k v'.
Proof.
  induction d as [|[k0 v0] d IH]; simpl.
  - now rewrite String.eqb_refl.
  - destruct (String.eqb k k0) eqn:E; simpl; rewrite E; congruence.
Qed.

Lemma dict_set_get_id d k v : dict_get d k = Some v -> dict_set d k v = d.
Proof.
  induction d as [|[k0 v0] d IH]; simpl; [discriminate|].
  destruct (String.eqb_spec k k0) as [->|]; intros H.
  - congruence.
  - now rewrite IH.
Qed.

Lemma dict_get_absent d k : ~ In k (map fst d) -> dict_get d k = None.
Proof.
  induction d as [|[k0 v0] d IH]; simpl; auto.
  intros H. destruct (String.eqb_spec k k0) as [->|]; [tauto|].
  apply IH. tauto.
Qed.

Lemma dict_merge_cons a k v b :
  dict_merge a ((k, v) :: b) = dict_merge (dict_set a k v) b.
Proof. reflexivity. Qed.

(** [{**a, **b}] has the bindings of [b], and those of [a] for the
    other keys. *)
Lemma dict_get_merge a b k :
  NoDup (map fst b) ->
  dict_get (dict_merge a b) k =
  match dict_get b k return option V with
  | Some x => Some x
  | None => dict_get a k
  end.
Proof.
  intros Hb. revert a.
  induction b as [|[k0 v0] b IH]; intros a; [reflexivity|].
  inversion Hb as [|? ? Hk0 Hb']; subst.
  rewrite dict_merge_cons, (IH Hb'). simpl.
  destruct (String.eqb_spec k k0) as [->|Hne].
  - now rewrite (dict_get_absent b k0 Hk0), dict_get_set_same.
  - now rewrite (dict_get_set_other a k0 k v0 Hne).
Qed.

End DictFacts.

Section ValueFacts.
Import Py Json.

(** Induction on a value, with the property at hand for the items of a
    list and for the values of a dict. *)
Lemma value_induction (P : value -> Prop) :
  P VNone ->
  (forall b, P (VBool b)) ->
  (forall z, P (VInt z)) ->
  (forall s, P (VStr s)) ->
  (forall l, Forall P l -> P (VList l)) ->
  (forall d, Forall (fun kv => P (snd kv)) d -> P (VDict d)) ->
  (forall n, P (VObj n)) ->
  forall o, P o.
Proof.
  intros HN HB HZ HS HL HD HO.
  fix IH 1.
  intros [ |b|z|s|l|d|n];
    [apply HN|apply HB|apply HZ|apply HS| | |apply HO].
  - apply HL. induction l as [|v l IHl]; constructor; [apply IH|exact IHl].
  - apply HD. induction d as [|[k v] d IHd]; constructor; [apply IH|exact IHd].
Qed.

Lemma serialisable_list l : serialisable (VList l) = all_serialisable l.
Proof. induction l; simpl; auto. Qed.

Lemma serialisable_dict_cons k v d :
  serialisable (VDict ((k, v) :: d)) = serialisable v && serialisable (VDict d).
Proof. reflexivity. Qed.

Lemma iterencode_list lvl v l :
  iterencode lvl (VList (v :: l)) =
  and_then (emit ("[" ++ newline_indent (S lvl))) (encode_elems lvl (v :: l)).
Proof.
  cbn [iterencode encode_elems]. do 2 f_equal.
  match goal with
  | |- match l with [] => ?F l | _ => _ end = _ =>
      assert (E : forall l0, F l0 = encode_elems lvl l0)
  end.
  { induction l0 as [|u l0 IHl]; [reflexivity|].
    cbn [encode_elems]. now rewrite IHl. }
  now rewrite E.
Qed.

Lemma iterencode_dict lvl kv d :
  iterencode lvl (VDict (kv :: d)) =
  and_then (emit ("{" ++ newline_indent (S lvl))) (encode_members lvl (kv :: d)).
Proof.
  destruct kv as [k v]. cbn [iterencode encode_members]. do 3 f_equal.
  match goal with
  | |- match d with [] => ?F d | _ => _ end = _ =>
      assert (E : forall d0, F d0 = encode_members lvl d0)
  end.
  { induction d0 as [|[k' u] d0 IHd]; [reflexivity|].
    cbn [encode_members]. now rewrite IHd. }
  now rewrite E.
Qed.

Lemma snd_and_then a b : snd (and_then a b) = snd a && snd b.
Proof. unfold and_then. destruct (snd a) eqn:E; simpl; auto. Qed.

Lemma fst_and_then_ok a b :
  snd a = true -> fst (and_then a b) = fst a ++ fst b.
Proof. unfold and_then. now intros ->. Qed.

Lemma serialisable_dict d :
  serialisable (VDict d) = forallb (fun kv => serialisable (snd kv)) d.
Proof. induction d as [|[k v] d IH]; simpl in *; auto. now rewrite IH. Qed.

(** The encoder fails exactly on a value that holds an object without
    a JSON form. *)
Lemma iterencode_serialisable o :
  forall lvl, snd (iterencode lvl o) = serialisable o.
Proof.
  induction o as [ |[|]|z|s|l IH|d IH|n] using value_induction;
    intros lvl; try reflexivity.
  - assert (E : snd (encode_elems lvl l) = all_serialisable l).
    { induction IH as [|u l Hu Hl IHl]; [reflexivity|].
      cbn [encode_elems all_serialisable]. rewrite snd_and_then, Hu.
      destruct l; [|rewrite snd_and_then]; cbn [emit snd andb];
        now rewrite IHl. }
    destruct l as [|v l]; [reflexivity|].
    now rewrite iterencode_list, snd_and_then, serialisable_list.
  - assert (E : snd (encode_members lvl d) =
                forallb (fun kv => serialisable (snd kv)) d).
    { induction IH as [|[k u] d Hu Hd IHd]; [reflexivity|].
      cbn [encode_members forallb]. rewrite !snd_and_then. cbn [snd] in Hu.
      rewrite Hu. cbn [emit snd andb].
      destruct d; [|rewrite snd_and_then]; cbn [emit snd andb];
        now rewrite IHd. }
    destruct d as [|kv d]; [reflexivity|].
    now rewrite iterencode_dict, snd_and_then, serialisable_dict.
Qed.

Lemma serialisable_dict_set d k v :
  serialisable (VDict d) = true -> serialisable v = true ->
  serialisable (VDict (dict_set d k v)) = true.
Proof.
  rewrite !serialisable_dict. intros Hd Hv.
  induction d as [|[k' v'] d IH]; simpl in *.
  - now rewrite Hv.
  - apply andb_prop in Hd as [H1 H2].
    destruct (String.eqb k k'); simpl; rewrite ?Hv, ?H1, ?H2; auto.
Qed.

Lemma serialisable_dict_merge a b :
  serialisable (VDict a) = true -> serialisable (VDict b) = true ->
  serialisable (VDict (dict_merge a b)) = true.
Proof.
  revert a. induction b as [|[k v] b IH]; intros a Ha Hb; [exact Ha|].
  rewrite serialisable_dict_cons in Hb. apply andb_prop in Hb as [Hv Hb].
  rewrite dict_merge_cons. apply IH; auto.
  now apply serialisable_dict_set.
Qed.

Lemma serialisable_snoc l v :
  serialisable (VList l) = true -> serialisable v = true ->
  serialisable (VList (l ++ [v])) = true.
Proof.
  rewrite !serialisable_list. intros Hl Hv.
  induction l as [|u l IH]; simpl in *.
  - now rewrite Hv.
  - apply andb_prop in Hl as [H1 H2]. rewrite H1. auto.
Qed.

Lemma serialisable_dict_get d k v :
  serialisable (VDict d) = true -> dict_get d k = Some v ->
  serialisable v = true.
Proof.
  rewrite serialisable_dict, forallb_forall. intros Hd Hk.
  apply (Hd (k, v)), dict_get_In, Hk.
Qed.

Lemma append_assoc (a b c : string) : (a ++ b) ++ c = a ++ (b ++ c).
Proof. induction a as [|x a IH]; simpl; congruence. Qed.

Lemma append_nonempty_l (a b : string) :
  a <> EmptyString -> a ++ b <> EmptyString.
Proof. destruct a; [congruence|discriminate]. Qed.

Lemma intstr_nonempty z : intstr z <> EmptyString.
Proof.
  unfold intstr. destruct (Z.to_int z) as [d|d]; [|discriminate].
  destruct d; discriminate.
Qed.

Lemma fst_and_then_emit s b : fst (and_then (emit s) b) = s ++ fst b.
Proof. reflexivity. Qed.

Lemma fst_and_then_failed a b :
  snd a = false -> fst (and_then a b) = fst a.
Proof. unfold and_then. now intros ->. Qed.

(** The encoder writes something for a value it can encode. *)
Lemma iterencode_nonempty o lvl :
  serialisable o = true -> fst (iterencode lvl o) <> EmptyString.
Proof.
  destruct o as [ |[|]|z|s|[|v l]|[|[k v] d]|n]; try discriminate.
  intros _. apply intstr_nonempty.
Qed.

Import StateManager.

Lemma cut_short_app p a b : cut_short a b -> cut_short (p ++ a) (p ++ b).
Proof.
  intros (rest & Hr & ->). exists rest. now rewrite append_assoc.
Qed.

Lemma cut_short_extend a b c : cut_short a b -> cut_short a (b ++ c).
Proof.
  intros (rest & Hr & ->). exists (rest ++ c). split.
  - now apply append_nonempty_l.
  - apply append_assoc.
Qed.

Section Patch.
Variable f : nat -> value.
Hypothesis f_serialisable : forall n, serialisable (f n) = true.

Lemma patch_serialisable o : serialisable o = true -> patch f o = o.
Proof.
  induction o as [ |b|z|s|l IH|d IH|n] using value_induction;
    try reflexivity; try discriminate.
  - rewrite serialisable_list. intros H. cbn [patch]. f_equal.
    induction IH as [|u l Hu Hl IHl]; [reflexivity|].
    cbn [all_serialisable] in H. apply andb_prop in H as [H1 H2].
    cbn [map]. now rewrite (Hu H1), (IHl H2).
  - rewrite serialisable_dict. intros H. cbn [patch]. f_equal.
    induction IH as [|[k u] d Hu Hd IHd]; [reflexivity|].
    cbn [forallb snd] in H. apply andb_prop in H as [H1 H2].
    cbn [map fst snd] in *. now rewrite (Hu H1), (IHd H2).
Qed.

Lemma serialisable_patch o : serialisable (patch f o) = true.
Proof.
  induction o as [ |b|z|s|l IH|d IH|n] using value_induction;
    try reflexivity; cbn [patch]; auto.
  - rewrite serialisable_list.
    induction IH as [|u l Hu Hl IHl]; [reflexivity|].
    cbn [map all_serialisable]. now rewrite Hu.
  - rewrite serialisable_dict.
    induction IH as [|[k u] d Hu Hd IHd]; [reflexivity|].
    cbn [map forallb fst snd] in *. now rewrite Hu.
Qed.

(** What the encoder writes before it fails is the beginning, and
    not the whole, of the text of the patched value. *)
Lemma iterencode_cut_short o :
  forall lvl,
    serialisable o = false ->
    cut_short (fst (iterencode lvl o)) (fst (iterencode lvl (patch f o))).
Proof.
  induction o as [ |b|z|s|l IH|d IH|n] using value_induction;
    intros lvl; try discriminate.
  - rewrite serialisable_list. intros H.
    assert (E : cut_short (fst (encode_elems lvl l))
                  (fst (encode_elems lvl (map (patch f) l)))).
    { induction IH as [|u l Hu Hl IHl]; [discriminate|].
      cbn [all_serialisable] in H. cbn [map encode_elems].
      destruct (serialisable u) eqn:Su.
      - rewrite (patch_serialisable u Su).
        rewrite !fst_and_then_ok by now rewrite iterencode_serialisable.
        apply cut_short_app. cbn [andb] in H.
        destruct l as [|u' l]; [discriminate|].
        cbn [map]. rewrite !fst_and_then_emit. apply cut_short_app.
        exact (IHl H).
      - rewrite fst_and_then_failed by now rewrite iterencode_serialisable.
        rewrite fst_and_then_ok
          by (rewrite iterencode_serialisable; apply serialisable_patch).
        apply cut_short_extend, Hu, eq_refl. }
    destruct l as [|v l]; [discriminate|].
    cbn [patch map]. rewrite !iterencode_list, !fst_and_then_emit.
    apply cut_short_app, E.
  - rewrite serialisable_dict. intros H.
    assert (E : cut_short (fst (encode_members lvl d))
                  (fst (encode_members lvl
                          (map (fun kv => (fst kv, patch f (snd kv))) d)))).
    { induction IH as [|[k u] d Hu Hd IHd]; [discriminate|].
      cbn [forallb fst snd] in *. cbn [map encode_members fst snd].
      rewrite !fst_and_then_emit. apply cut_short_app.
      destruct (serialisable u) eqn:Su.
      - rewrite (patch_serialisable u Su).
        rewrite !fst_and_then_ok by now rewrite iterencode_serialisable.
        apply cut_short_app. cbn [andb] in H.
        destruct d as [|kv d]; [discriminate|].
        cbn [map]. rewrite !fst_and_then_emit. apply cut_short_app.
        exact (IHd H).
      - rewrite fst_and_then_failed by now rewrite iterencode_serialisable.
        rewrite fst_and_then_ok
          by (rewrite iterencode_serialisable; apply serialisable_patch).
        apply cut_short_extend, Hu, eq_refl. }
    destruct d as [|kv d]; [discriminate|].
    cbn [patch map]. rewrite !iterencode_dict, !fst_and_then_emit.
    apply cut_short_app, E.
  - intros _. exists (fst (iterencode lvl (f n))). split.
    + apply iterencode_nonempty, f_serialisable.
    + reflexivity.
Qed.

End Patch.

End ValueFacts.

(** ** The state manager *)

Section StateManagerFacts.
Import Py Json StateManager.
Local Open Scope py_scope.

Variable now : nat -> string.
Variable json_loads : string -> option value.
Variable task_id : string.

Local Abbreviation save := (save now).
Local Abbreviation stamped := (stamped now).
Local Abbreviation init_state := (init_state now task_id).
Local Abbreviation load := (load now json_loads task_id).
Local Abbreviation update_status := (update_status now json_loads task_id).
Local Abbreviation update_step := (update_step now json_loads task_id).
Local Abbreviation increment_retry := (increment_retry now json_loads task_id).
Local Abbreviation add_escalation := (add_escalation now json_loads task_id).
Local Abbreviation get_current_step := (get_current_step now json_loads task_id).
Local Abbreviation can_retry := (can_retry now json_loads task_id).
Local Abbreviation run := (run now json_loads task_id).

(** [save] empties the file and writes what the encoder produces, to
    its end or up to its failure. *)
Lemma save_dict d w :
  save (VDict d) w =
  (if serialisable (stamped d w) then Ok (stamped d w) else Raise TypeError,
   mkWorld (Directory (Some (fst (iterencode 0 (stamped d w)))))
           (S (ticks w))).
Proof.
  rewrite <- (iterencode_serialisable _ 0%nat).
  unfold StateManager.save, bind, mkdir, _get_timestamp, lift, open_w,
    json_dump, write, ret, raise.
  cbn [py_setitem task_dir ticks fst snd]. fold (stamped d w).
  destruct (task_dir w); cbn [task_dir ticks fst snd];
    destruct (snd (iterencode 0 _)); reflexivity.
Qed.

Lemma load_existing w text state :
  state_file w = Some text -> json_loads text = Some state ->
  load w = (Ok state, w).
Proof.
  unfold state_file, StateManager.load, bind, state_file_exists, read_text,
    ret. intros Hf Hl.
  destruct w as [[|[t|]] n]; try discriminate.
  injection Hf as ->. simpl. now rewrite Hl.
Qed.

Lemma load_missing w :
  state_file w = None -> load w = init_state 3 w.
Proof.
  unfold state_file, StateManager.load, bind, state_file_exists.
  intros Hf. destruct w as [[|[t|]] n]; try discriminate; reflexivity.
Qed.

(** C1, amended.  [save] writes in place.  When the stamped state
    can be encoded, [save] returns and the file holds the complete new
    record, which a decoder that inverts the encoder on it gives back
    to [load].  When it cannot, [save] raises [TypeError] and the file
    holds the text written before the failure: the beginning, cut
    short, of the record that any replacement of the offending objects
    would give. *)
Theorem save_writes_in_place d w :
  let state' := stamped d w in
  let out := save (VDict d) w in
  (serialisable state' = true ->
     fst out = Ok state' /\
     state_file (snd out) = Some (json_dumps state') /\
     (json_loads (json_dumps state') = Some state' ->
      load (snd out) = (Ok state', snd out))) /\
  (serialisable state' = false ->
     fst out = Raise TypeError /\
     exists partial,
       state_file (snd out) = Some partial /\
       forall f, (forall n, serialisable (f n) = true) ->
                 cut_short partial (json_dumps (patch f state'))).
Proof.
  cbv zeta. rewrite save_dict. split; intros Hs; rewrite Hs; cbn [fst snd].
  - split; [reflexivity|]. split; [reflexivity|].
    intros Hl. now apply (load_existing _ (json_dumps (stamped d w))).
  - split; [reflexivity|]. eexists. split; [reflexivity|].
    intros f Hf. now apply iterencode_cut_short.
Qed.

Lemma load_undecodable w text :
  state_file w = Some text -> json_loads text = None ->
  load w = (Raise JSONDecodeError, w).
Proof.
  intros Hf Hl. unfold state_file in Hf.
  unfold StateManager.load, bind, state_file_exists, read_text, raise.
  destruct w as [[|[t|]] n]; try discriminate.
  injection Hf as ->. simpl. now rewrite Hl.
Qed.

(** A record that is there is read and nothing else is done. *)
Lemma load_reads_only w state w1 :
  state_file w <> None -> load w = (Ok state, w1) -> w1 = w.
Proof.
  intros Hf E. destruct (state_file w) as [text|] eqn:Ht; [|congruence].
  destruct (json_loads text) as [st|] eqn:Hl.
  - rewrite (load_existing w text st Ht Hl) in E. congruence.
  - rewrite (load_undecodable w text Ht Hl) in E. discriminate E.
Qed.

(** C2.  When [state.json] is there and its text does not decode,
    [load] raises the decoder's error, which is not a storage error,
    and changes nothing: the file keeps its text and no record is
    initialised in its place. *)
Theorem load_corrupt_record w text :
  state_file w = Some text -> json_loads text = None ->
  load w = (Raise JSONDecodeError, w) /\
  JSONDecodeError <> OSError /\
  state_file (snd (load w)) = Some text.
Proof.
  intros Hf Hl. rewrite (load_undecodable w text Hf Hl).
  repeat split; [discriminate|exact Hf].
Qed.

(** C3.  When there is no [state.json], [load] returns a new record
    and writes it: status [INIT], the five steps in their default
    shape, no retry, no escalation, three retries allowed. *)
Theorem load_initialises w :
  state_file w = None ->
  exists d steps,
    load w =
      (Ok (VDict d),
       mkWorld (Directory (Some (json_dumps (VDict d)))) (S (S (ticks w)))) /\
    dict_get d "task_id" = Some (VStr task_id) /\
    dict_get d "status" = Some (VStr Status.INIT) /\
    dict_get d "steps" = Some (VDict steps) /\
    map fst steps = step_order /\
    dict_get steps "design" = Some (VDict [("status", VStr "pending")]) /\
    dict_get steps "test_cases" = Some (VDict [("status", VStr "pending")]) /\
    dict_get steps "implementation" =
      Some (VDict [("status", VStr "pending"); ("attempt", VInt 0)]) /\
    dict_get steps "testing" =
      Some (VDict [("status", VStr "pending"); ("results", VList [])]) /\
    dict_get steps "review" = Some (VDict [("status", VStr "pending")]) /\
    dict_get d "retry_count" = Some (VInt 0) /\
    dict_get d "escalation" =
      Some (VDict [("count", VInt 0); ("history", VList [])]) /\
    dict_get d "max_retries" = Some (VInt 3).
Proof.
  intros Hf. rewrite (load_missing w Hf).
  unfold StateManager.init_state, bind, mkdir, _get_timestamp.
  cbn [fst snd task_dir ticks]. rewrite save_dict.
  cbn [task_dir ticks]. unfold StateManager.stamped, json_dumps.
  cbn [dict_set String.eqb Ascii.eqb Bool.eqb]. cbn [ticks].
  do 2 eexists. split; [reflexivity|].
  repeat split; reflexivity.
Qed.

(** What [==] with a string answers. *)
Lemma py_eq_str v wanted :
  py_eq v (VStr wanted) =
  match v with VStr s => String.eqb s wanted | _ => false end.
Proof. destruct v as [ |b|z|s|l|d|n]; try reflexivity; now destruct l. Qed.

(** Each loop of [get_current_step] is a search in the step order. *)
Lemma find_step_find wanted d steps order :
  dict_get d "steps" = Some (VDict steps) ->
  (forall name r, In name order -> dict_get steps name = Some r ->
                  exists record, r = VDict record) ->
  find_step wanted order (VDict d) = Ok (find (has_status steps wanted) order).
Proof.
  intros Hs. induction order as [|name order IH]; intros Hwf; [reflexivity|].
  cbn [find_step find py_getitem]. rewrite Hs.
  cbn [py_contains py_getitem]. unfold dict_mem, has_status.
  assert (IH' := IH (fun n r Hn => Hwf n r (or_intror Hn))).
  destruct (dict_get steps name) as [r|] eqn:Hr; [|exact IH'].
  destruct (Hwf name r (or_introl eq_refl) Hr) as [record ->].
  cbn [py_get]. destruct (dict_get record "status") as [v|]; [|exact IH'].
  rewrite py_eq_str.
  destruct v as [ |b|z|s|l|d0|n]; try exact IH'.
  destruct (String.eqb s wanted); [reflexivity|exact IH'].
Qed.

(** C4.  On a loaded record whose steps are records,
    [get_current_step] answers the first step in progress of the fixed
    order, else the first pending one, else the last step; it does
    nothing but the load, which leaves the world of a record that is
    there as it was. *)
Theorem get_current_step_scans w w1 d steps :
  load w = (Ok (VDict d), w1) ->
  dict_get d "steps" = Some (VDict steps) ->
  (forall name r, In name step_order -> dict_get steps name = Some r ->
                  exists record, r = VDict record) ->
  get_current_step w = (Ok (current_step steps), w1) /\
  (state_file w <> None -> w1 = w).
Proof.
  intros Hl Hs Hwf.
  split; [|intros Hf; exact (load_reads_only w _ w1 Hf Hl)].
  unfold StateManager.get_current_step, bind.
  rewrite Hl. unfold lift.
  rewrite !(find_step_find _ d steps step_order Hs Hwf).
  unfold current_step.
  destruct (find (has_status steps "in_progress") step_order);
    [reflexivity|].
  destruct (find (has_status steps "pending") step_order); reflexivity.
Qed.

(** C7.  On a loaded record, [can_retry] compares the retry count, 0
    when absent, with the maximum, 3 when absent: true when the count is
    below the maximum, false when it has reached or passed it. *)
Theorem can_retry_compares w w1 d n m :
  load w = (Ok (VDict d), w1) ->
  int_field d "retry_count" 0 n -> int_field d "max_retries" 3 m ->
  can_retry w = (Ok (n <? m), w1) /\
  ((n <? m) = true <-> n < m) /\
  ((n <? m) = false <-> m <= n).
Proof.
  intros Hl Hn Hm. split; [|split; [apply Z.ltb_lt|apply Z.ltb_ge]].
  unfold StateManager.can_retry, bind.
  rewrite Hl. unfold lift, int_field in *.
  cbn [py_get].
  destruct (dict_get d "retry_count"); destruct (dict_get d "max_retries");
    subst; reflexivity.
Qed.

(** The loop of [update_step] assigns the fields to the record of the
    step, one after the other. *)
Lemma merge_fields_merge step_name kwargs :
  forall d steps record,
    merge_fields step_name kwargs
      (VDict (dict_set d "steps"
                (VDict (dict_set steps step_name (VDict record))))) =
    Ok (VDict (dict_set d "steps"
                 (VDict (dict_set steps step_name
                           (VDict (dict_merge record kwargs)))))).
Proof.
  induction kwargs as [|[key v] kwargs IH]; intros d steps record;
    [reflexivity|].
  cbn [merge_fields at_path py_getitem].
  rewrite dict_get_set_same. cbn [py_getitem].
  rewrite dict_get_set_same. cbn [py_setitem].
  rewrite !dict_set_set. apply IH.
Qed.

(** C5.  [update_step] gives the step an empty record if it has none,
    assigns every given field in that record, and leaves the other
    steps and the other fields of the state, [updated_at] apart, as
    they were; the new state is returned and written. *)
Theorem update_step_merges w w1 d steps step_name kwargs :
  load w = (Ok (VDict d), w1) ->
  dict_get d "steps" = Some (VDict steps) ->
  (forall r, dict_get steps step_name = Some r ->
             exists record, r = VDict record) ->
  NoDup (map fst kwargs) ->
  serialisable (VDict d) = true -> serialisable (VDict kwargs) = true ->
  exists d' steps' record',
    update_step step_name kwargs w =
      (Ok (VDict d'),
       mkWorld (Directory (Some (json_dumps (VDict d')))) (S (ticks w1))) /\
    dict_get d' "steps" = Some (VDict steps') /\
    dict_get steps' step_name = Some (VDict record') /\
    (dict_get steps step_name = None -> kwargs = [] -> record' = []) /\
    (forall k, dict_get record' k =
               merged (record_of steps step_name) kwargs k) /\
    (forall name, name <> step_name ->
                  dict_get steps' name = dict_get steps name) /\
    (forall k, k <> "steps" -> k <> "updated_at" ->
               dict_get d' k = dict_get d k) /\
    dict_get d' "updated_at" = Some (VStr (now (ticks w1))).
Proof.
  intros Hl Hs Hwf Hnd Hd Hk.
  set (record := record_of steps step_name).
  set (record' := dict_merge record kwargs).
  set (steps' := dict_set steps step_name (VDict record')).
  set (d1 := dict_set d "steps" (VDict steps')).
  assert (Hsteps : serialisable (VDict steps) = true)
    by exact (serialisable_dict_get d "steps" _ Hd Hs).
  assert (Hrec : serialisable (VDict record) = true).
  { unfold record, record_of.
    destruct (dict_get steps step_name) as [r|] eqn:Hr; [|reflexivity].
    destruct (Hwf r eq_refl) as [rd ->].
    exact (serialisable_dict_get steps step_name _ Hsteps Hr). }
  assert (Hd1 : serialisable (stamped d1 w1) = true).
  { unfold StateManager.stamped, d1, steps', record'.
    apply serialisable_dict_set; [|reflexivity].
    apply serialisable_dict_set; [exact Hd|].
    apply serialisable_dict_set; [exact Hsteps|].
    now apply serialisable_dict_merge. }
  assert (E : update_step step_name kwargs w =
              StateManager.save now (VDict d1) w1).
  { unfold StateManager.update_step, bind.
    rewrite Hl. unfold lift.
    cbn [py_getitem]. rewrite Hs. cbn [py_contains]. unfold dict_mem.
    assert (M := merge_fields_merge step_name kwargs d steps record).
    fold record' steps' d1 in M.
    destruct (dict_get steps step_name) as [r|] eqn:Hr; cbn [negb].
    - destruct (Hwf r eq_refl) as [rd ->]. unfold ret.
      assert (Hid : VDict d =
                    VDict (dict_set d "steps"
                             (VDict (dict_set steps step_name (VDict record))))).
      { unfold record, record_of. rewrite Hr.
        now rewrite (dict_set_get_id steps _ _ Hr), (dict_set_get_id d _ _ Hs). }
      rewrite Hid at 1. now rewrite M.
    - cbn [at_path py_getitem]. rewrite Hs. cbn [at_path py_setitem].
      assert (Hrec0 : record = []) by (unfold record, record_of; now rewrite Hr).
      rewrite Hrec0 in M. now rewrite M. }
  exists (dict_set d1 "updated_at" (VStr (now (ticks w1)))), steps', record'.
  rewrite E, save_dict, Hd1. unfold json_dumps. fold (stamped d1 w1).
  split; [reflexivity|].
  split.
  { rewrite dict_get_set_other by discriminate. apply dict_get_set_same. }
  split; [apply dict_get_set_same|].
  split.
  { intros Hnone ->. unfold record', record, record_of. now rewrite Hnone. }
  split; [intros k; apply dict_get_merge, Hnd|].
  split; [intros name Hne; now apply dict_get_set_other|].
  split; [|apply dict_get_set_same].
  intros k H1 H2. unfold d1. now rewrite !dict_get_set_other.
Qed.

(** *** The escalation counter *)

Lemma escalation_consistent_frame d d' :
  escalation_consistent (VDict d) ->
  dict_get d' "escalation" = dict_get d "escalation" ->
  escalation_consistent (VDict d').
Proof.
  intros (d0 & esc & h & E & H1 & H2 & H3) Hd. injection E as <-.
  exists d', esc, h. rewrite Hd. auto.
Qed.

Lemma escalation_consistent_set d k v :
  escalation_consistent (VDict d) -> k <> "escalation" ->
  escalation_consistent (VDict (dict_set d k v)).
Proof.
  intros H Hk. apply (escalation_consistent_frame d); auto.
  apply dict_get_set_other. congruence.
Qed.

Lemma save_consistent state w state' w' :
  escalation_consistent state ->
  save state w = (Ok state', w') ->
  escalation_consistent state' /\
  state_file w' = Some (json_dumps state').
Proof.
  intros H E. destruct H as (d & esc & h & -> & H).
  assert (Hc : escalation_consistent (VDict d)) by (exists d, esc, h; auto).
  rewrite save_dict in E.
  destruct (serialisable (stamped d w)); [|discriminate].
  injection E as <- <-. split; [|reflexivity].
  apply escalation_consistent_set; [exact Hc|discriminate].
Qed.

Lemma init_state_consistent max_retries w :
  exists state,
    init_state max_retries w =
      (Ok state,
       mkWorld (Directory (Some (json_dumps state))) (S (S (ticks w)))) /\
    escalation_consistent state.
Proof.
  unfold StateManager.init_state, bind, mkdir, _get_timestamp.
  cbn [fst snd task_dir ticks]. rewrite save_dict.
  cbn [task_dir ticks]. unfold StateManager.stamped, json_dumps.
  cbn [dict_set String.eqb Ascii.eqb Bool.eqb]. cbn [ticks].
  eexists. split; [reflexivity|].
  eexists _, _, []. repeat split; reflexivity.
Qed.

Lemma load_consistent w state w' :
  persisted_consistent json_loads w ->
  load w = (Ok state, w') ->
  escalation_consistent state /\
  (w' = w \/ state_file w' = Some (json_dumps state)).
Proof.
  intros Hp E. destruct (state_file w) as [text|] eqn:Hf.
  - destruct (json_loads text) as [st|] eqn:Hl.
    + rewrite (load_existing w text st Hf Hl) in E. injection E as <- <-.
      split; [exact (Hp text st Hf Hl)|now left].
    + rewrite (load_undecodable w text Hf Hl) in E. discriminate.
  - rewrite (load_missing w Hf) in E.
    destruct (init_state_consistent 3 w) as (st & E' & Hc).
    rewrite E' in E. injection E as <- <-. split; [exact Hc|now right].
Qed.

Lemma at_path_frame d k path f state' :
  at_path (VDict d) (k :: path) f = Ok state' ->
  exists x, state' = VDict (dict_set d k x).
Proof.
  cbn [at_path py_getitem]. destruct (dict_get d k) as [x|]; [|discriminate].
  destruct (at_path x path f) as [x'|]; [|discriminate].
  cbn [py_setitem]. intros [= <-]. now exists x'.
Qed.

Lemma merge_fields_frame step_name kwargs :
  forall d state',
    merge_fields step_name kwargs (VDict d) = Ok state' ->
    exists d', state' = VDict d' /\
               forall k, k <> "steps" -> dict_get d' k = dict_get d k.
Proof.
  induction kwargs as [|[key v] kwargs IH]; intros d state'.
  - intros [= <-]. now exists d.
  - cbn [merge_fields].
    destruct (at_path (VDict d) ["steps"; step_name] _) as [s1|] eqn:E;
      [|discriminate].
    apply at_path_frame in E as [x ->]. intros H.
    apply IH in H as (d' & -> & Hd'). exists d'. split; [reflexivity|].
    intros k Hk. rewrite (Hd' k Hk). now apply dict_get_set_other.
Qed.

(** [add_escalation] on a loaded record with its counter and its
    history: what it hands to [save]. *)
Lemma add_escalation_after_load w w1 d esc n history reason response :
  load w = (Ok (VDict d), w1) ->
  dict_get d "escalation" = Some (VDict esc) ->
  int_field esc "count" 0 n ->
  dict_get esc "history" = Some (VList history) ->
  add_escalation reason response w =
  StateManager.save now
    (VDict
       (dict_set d "escalation"
          (VDict
             (dict_set (dict_set esc "count" (VInt (n + 1))) "history"
                (VList (history ++
                        [escalation_entry (now (ticks w1)) reason response]
                       )%list)))))
    (mkWorld (task_dir w1) (S (ticks w1))).
Proof.
  intros El He Hn Hh.
  unfold StateManager.add_escalation, bind. rewrite El.
  unfold _get_timestamp, lift. cbn [py_getitem]. rewrite He.
  cbn [py_get]. unfold int_field in Hn.
  assert (Hget : match dict_get esc "count" with
                 | Some v => Ok v
                 | None => Ok (VInt 0)
                 end = Ok (VInt n))
    by (destruct (dict_get esc "count"); now subst).
  rewrite Hget. cbn [py_add1 at_path py_getitem].
  rewrite He. cbn [py_setitem at_path py_getitem].
  rewrite dict_get_set_same. cbn [py_getitem].
  rewrite dict_get_set_other by discriminate. rewrite Hh.
  cbn [py_append py_setitem]. now rewrite dict_set_set.
Qed.

Lemma escalation_consistent_dict state :
  escalation_consistent state -> exists d, state = VDict d.
Proof. intros (d & _ & _ & -> & _). now exists d. Qed.

Ltac after_load H Hp :=
  let st := fresh "st" in
  let w1 := fresh "w1" in
  let El := fresh "El" in
  let Hc := fresh "Hc" in
  let Hw := fresh "Hw" in
  unfold answering, bind, lift, ret in H;
  destruct (StateManager.load _ _ _ _) as [[st|?] w1] eqn:El;
  [|discriminate H];
  destruct (load_consistent _ _ _ Hp El) as [Hc Hw].

Ltac then_save H HC :=
  let ES := fresh "ES" in
  destruct (StateManager.save _ _ _) as [[?|?] ?] eqn:ES;
  [|discriminate H];
  injection H as <- <-;
  destruct (save_consistent _ _ _ _ HC ES);
  split; [intros ? [= <-]; assumption|right; eauto].

Ltac is_read H Hc Hw :=
  injection H as <- <-;
  split; [intros ? [=]|destruct Hw as [->|Hw]; [now left|right; eauto]].

Lemma run_preserves_consistency o w a w' :
  persisted_consistent json_loads w ->
  (forall s, o = Save s -> escalation_consistent s) ->
  run o w = (Ok a, w') ->
  consistent_after w a w'.
Proof.
  intros Hp Hs H. destruct o; cbn [StateManager.run] in H.
  - destruct (init_state_consistent max_retries w) as (st & E & Hc).
    unfold answering, bind, ret in H. rewrite E in H. injection H as <- <-.
    split; [intros ? [= <-]; exact Hc|right; eauto].
  - unfold answering, bind, ret in H.
    destruct (load w) as [[st|?] w1] eqn:El; [|discriminate].
    injection H as <- <-.
    destruct (load_consistent w st w1 Hp El) as [Hc [->|Hw]];
      (split; [intros ? [= <-]; exact Hc|]); [now left|right; eauto].
  - unfold answering, bind, ret in H.
    assert (HC := Hs state eq_refl). then_save H HC.
  - unfold StateManager.update_status in H. after_load H Hp.
    destruct (escalation_consistent_dict _ Hc) as [d ->].
    cbn [py_setitem] in H.
    assert (HC : escalation_consistent
                   (VDict (dict_set d "status" (VStr new_status))))
      by (apply escalation_consistent_set; [exact Hc|discriminate]).
    then_save H HC.
  - unfold StateManager.update_step in H. after_load H Hp.
    destruct (escalation_consistent_dict _ Hc) as [d ->].
    destruct (py_getitem (VDict d) "steps") as [steps|]; [|discriminate H].
    destruct (py_contains steps step_name) as [present|];
      [|discriminate H].
    assert (HM : forall d1 s2,
               dict_get d1 "escalation" = dict_get d "escalation" ->
               merge_fields step_name kwargs (VDict d1) = Ok s2 ->
               escalation_consistent s2).
    { intros d1 s2 H1 H2. apply merge_fields_frame in H2 as (d2 & -> & H2).
      apply (escalation_consistent_frame d); [exact Hc|].
      rewrite H2 by discriminate. exact H1. }
    destruct present; cbn [negb] in H.
    + destruct (merge_fields step_name kwargs (VDict d)) as [s2|] eqn:E4;
        [|discriminate H].
      apply HM in E4; [|reflexivity]. then_save H E4.
    + destruct (at_path (VDict d) ["steps"] _) as [s1|] eqn:E3;
        [|discriminate H].
      apply at_path_frame in E3 as [x ->].
      destruct (merge_fields step_name kwargs _) as [s2|] eqn:E4;
        [|discriminate H].
      apply HM in E4; [|now apply dict_get_set_other]. then_save H E4.
  - unfold StateManager.increment_retry in H. after_load H Hp.
    destruct (escalation_consistent_dict _ Hc) as [d ->].
    destruct (py_get (VDict d) "retry_count" (VInt 0)) as [n|];
      [|discriminate H].
    destruct (py_add1 n) as [n'|]; [|discriminate H].
    cbn [py_setitem] in H.
    assert (HC : escalation_consistent (VDict (dict_set d "retry_count" n')))
      by (apply escalation_consistent_set; [exact Hc|discriminate]).
    then_save H HC.
  - destruct (load w) as [[st|e] w1] eqn:El.
    2:{ unfold answering, StateManager.add_escalation, bind in H.
        rewrite El in H. discriminate H. }
    destruct (load_consistent _ _ _ Hp El)
      as [(d & esc & h & -> & He & Hn & Hh) Hw].
    unfold answering, bind, ret in H.
    assert (Hn' : int_field esc "count" 0 (Z.of_nat (length h)))
      by (unfold int_field; now rewrite Hn).
    rewrite (add_escalation_after_load w w1 d esc _ h reason response
               El He Hn' Hh) in H.
    match type of H with
    | context [StateManager.save _ ?s _] =>
        assert (HC : escalation_consistent s)
    end.
    { eexists _, _, (h ++ [_])%list. split; [reflexivity|].
      split; [apply dict_get_set_same|].
      split; [|apply dict_get_set_same].
      rewrite dict_get_set_other by discriminate.
      rewrite dict_get_set_same, length_app, Nat2Z.inj_add. reflexivity. }
    then_save H HC.
  - unfold StateManager.get_current_step in H. after_load H Hp.
    destruct (find_step "in_progress" step_order st) as [[name|]|];
      [is_read H Hc Hw| |discriminate H].
    destruct (find_step "pending" step_order st) as [[name|]|];
      [is_read H Hc Hw|is_read H Hc Hw|discriminate H].
  - unfold StateManager.can_retry in H. after_load H Hp.
    destruct (py_get st "retry_count" (VInt 0)) as [n|]; [|discriminate H].
    destruct (py_get st "max_retries" (VInt 3)) as [m|]; [|discriminate H].
    destruct (py_lt n m) as [b|]; [|discriminate H].
    is_read H Hc Hw.
  - unfold StateManager.is_completed in H. after_load H Hp.
    destruct (py_get st "status" VNone) as [s|]; [|discriminate H].
    is_read H Hc Hw.
  - unfold StateManager.is_failed in H. after_load H Hp.
    destruct (py_get st "status" VNone) as [s|]; [|discriminate H].
    is_read H Hc Hw.
Qed.

(** C6.  The counter of the escalations is the length of their
    history: after [init_state], and after every operation that
    returns, on the state it returns and on the record in the file, if
    it was so before; [add_escalation] appends one entry, with the
    response when one is given, and adds one to the counter. *)
Theorem escalation_count_matches_history :
  (forall w max_retries,
      exists state,
        init_state max_retries w =
          (Ok state,
           mkWorld (Directory (Some (json_dumps state))) (S (S (ticks w)))) /\
        escalation_consistent state) /\
  (forall o w a w',
      persisted_consistent json_loads w ->
      (forall s, o = Save s -> escalation_consistent s) ->
      run o w = (Ok a, w') ->
      consistent_after w a w') /\
  (forall w w1 d esc n history reason response,
      load w = (Ok (VDict d), w1) ->
      serialisable (VDict d) = true ->
      dict_get d "escalation" = Some (VDict esc) ->
      int_field esc "count" 0 n ->
      dict_get esc "history" = Some (VList history) ->
      exists d' esc',
        add_escalation reason response w =
          (Ok (VDict d'),
           mkWorld (Directory (Some (json_dumps (VDict d'))))
                   (S (S (ticks w1)))) /\
        dict_get d' "escalation" = Some (VDict esc') /\
        dict_get esc' "count" = Some (VInt (n + 1)) /\
        dict_get esc' "history" =
          Some (VList (history ++
                       [history_entry (now (ticks w1)) reason response])%list) /\
        (forall k, k <> "escalation" -> k <> "updated_at" ->
                   dict_get d' k = dict_get d k)).
Proof.
  split; [exact (fun w m => init_state_consistent m w)|].
  split; [exact run_preserves_consistency|].
  intros w w1 d esc n history reason response Hl Hd He Hn Hh.
  rewrite (add_escalation_after_load w w1 d esc n history reason response
             Hl He Hn Hh).
  assert (Hentry : escalation_entry (now (ticks w1)) reason response =
                   history_entry (now (ticks w1)) reason response)
    by (destruct response; reflexivity).
  rewrite Hentry, save_dict.
  assert (Hesc : serialisable (VDict esc) = true)
    by exact (serialisable_dict_get d _ _ Hd He).
  assert (Hs : serialisable
                 (stamped
                    (dict_set d "escalation"
                       (VDict
                          (dict_set (dict_set esc "count" (VInt (n + 1)))
                             "history"
                             (VList (history ++
                                     [history_entry (now (ticks w1)) reason
                                        response])%list))))
                    (mkWorld (task_dir w1) (S (ticks w1)))) = true).
  { unfold StateManager.stamped.
    apply serialisable_dict_set; [|reflexivity].
    apply serialisable_dict_set; [exact Hd|].
    apply serialisable_dict_set;
      [apply serialisable_dict_set; [exact Hesc|reflexivity]|].
    apply serialisable_snoc;
      [exact (serialisable_dict_get esc _ _ Hesc Hh)|].
    destruct response; reflexivity. }
  rewrite Hs. unfold StateManager.stamped, json_dumps. cbn [ticks].
  do 2 eexists. split; [reflexivity|].
  rewrite dict_get_set_other by discriminate.
  split; [apply dict_get_set_same|].
  split; [rewrite dict_get_set_other by discriminate;
          apply dict_get_set_same|].
  split; [apply dict_get_set_same|].
  intros k H1 H2. now rewrite !dict_get_set_other.
Qed.

End StateManagerFacts.


(** C2 at a file that was cut short. *)
Lemma load_corrupt_record_witness :
  StateManager.load Sample.clock Json.loads Sample.task Sample.corrupt_world
  = (Py.Raise Py.JSONDecodeError, Sample.corrupt_world).
Proof.
  apply (load_corrupt_record Sample.clock Json.loads Sample.task
           Sample.corrupt_world "{ broken"); reflexivity.
Defined.

(** C3 at the first load of the sample task. *)
Lemma load_initialises_witness :
  exists d,
    fst (StateManager.load Sample.clock Json.loads Sample.task
           Sample.empty_world) = Py.Ok (Py.VDict d) /\
    Py.dict_get d "status" = Some (Py.VStr "INIT").
Proof.
  destruct (load_initialises Sample.clock Json.loads Sample.task
              Sample.empty_world eq_refl) as (d & steps & E & _ & H & _).
  exists d. rewrite E. split; [reflexivity|exact H].
Defined.

(** C1 as stated fails: the save of a state that holds a path object
    raises after the file was emptied and partly rewritten, and the
    next [load] finds neither the previous record nor the new one. *)
Lemma save_is_not_atomic :
  ~ StateManager.save_is_atomic Sample.clock Sample.state_with_path
      Sample.fresh_world /\
  fst (StateManager.save Sample.clock Sample.state_with_path
         Sample.fresh_world) = Py.Raise Py.TypeError /\
  fst (StateManager.load Sample.clock Json.loads Sample.task
         (snd (StateManager.save Sample.clock Sample.state_with_path
                 Sample.fresh_world)))
  = Py.Raise Py.JSONDecodeError.
Proof.
  split; [|split; vm_compute; reflexivity].
  intros [_ H]. specialize (H Py.TypeError eq_refl).
  vm_compute in H. discriminate H.
Qed.

(** C1, amended, at the first record of the sample task, saved again,
    and at the state that holds a path object. *)
Lemma save_writes_in_place_witness :
  StateManager.load Sample.clock Json.loads Sample.task
    (snd (StateManager.save Sample.clock Sample.fresh_state
            Sample.fresh_world))
  = (Py.Ok (StateManager.stamped Sample.clock Sample.fresh_dict
              Sample.fresh_world),
     snd (StateManager.save Sample.clock Sample.fresh_state
            Sample.fresh_world)) /\
  fst (StateManager.save Sample.clock Sample.state_with_path
         Sample.fresh_world) = Py.Raise Py.TypeError.
Proof.
  split.
  - apply (proj1 (save_writes_in_place Sample.clock Json.loads Sample.task
                    Sample.fresh_dict Sample.fresh_world));
      vm_compute; reflexivity.
  - apply (proj2 (save_writes_in_place Sample.clock Json.loads Sample.task
                    Sample.path_dict Sample.fresh_world)).
    vm_compute; reflexivity.
Defined.

(** C4 at the record with two steps completed and the implementation in
    progress. *)
Lemma get_current_step_scans_witness :
  StateManager.get_current_step Sample.clock Json.loads Sample.task
    Sample.progress_world
  = (Py.Ok "implementation", Sample.progress_world).
Proof.
  apply (get_current_step_scans Sample.clock Json.loads Sample.task
           Sample.progress_world Sample.progress_world
           (Sample.record_of_world Sample.progress_world)
           (Sample.steps_of_world Sample.progress_world));
    try (vm_compute; reflexivity).
  intros name r [<-|[<-|[<-|[<-|[<-|[]]]]]] H; vm_compute in H;
    injection H as <-; eexists; reflexivity.
Defined.

(** C7 at the first record of the sample task: no retry yet, three
    allowed. *)
Lemma can_retry_compares_witness :
  StateManager.can_retry Sample.clock Json.loads Sample.task
    Sample.fresh_world
  = (Py.Ok true, Sample.fresh_world).
Proof.
  apply (can_retry_compares Sample.clock Json.loads Sample.task
           Sample.fresh_world Sample.fresh_world
           (Sample.record_of_world Sample.fresh_world) 0 3);
    vm_compute; reflexivity.
Defined.

(** C5 at the update of the specification: the implementation step set
    in progress at its first attempt, the design step untouched. *)
Lemma update_step_merges_witness :
  exists d' steps' record',
    fst (StateManager.update_step Sample.clock Json.loads Sample.task
           "implementation"
           [("status", Py.VStr "in_progress"); ("attempt", Py.VInt 1)]
           Sample.fresh_world) = Py.Ok (Py.VDict d') /\
    Py.dict_get d' "steps" = Some (Py.VDict steps') /\
    Py.dict_get steps' "implementation" = Some (Py.VDict record') /\
    Py.dict_get record' "status" = Some (Py.VStr "in_progress") /\
    Py.dict_get record' "attempt" = Some (Py.VInt 1) /\
    Py.dict_get steps' "design" =
      Some (Py.VDict [("status", Py.VStr "pending")]).
Proof.
  destruct (update_step_merges Sample.clock Json.loads Sample.task
              Sample.fresh_world Sample.fresh_world
              (Sample.record_of_world Sample.fresh_world)
              (Sample.steps_of_world Sample.fresh_world)
              "implementation"
              [("status", Py.VStr "in_progress"); ("attempt", Py.VInt 1)])
    as (d' & steps' & record' & E & Hs & Hr & _ & Hm & Ho & _);
    try (vm_compute; reflexivity).
  - intros r H. vm_compute in H. injection H as <-. eexists; reflexivity.
  - repeat constructor; simpl; intuition discriminate.
  - exists d', steps', record'. rewrite E.
    split; [reflexivity|]. split; [exact Hs|]. split; [exact Hr|].
    split; [now rewrite Hm|]. split; [now rewrite Hm|].
    rewrite Ho by discriminate. reflexivity.
Defined.

(** C6 at the second escalation of the specification, with a response,
    after a first one without. *)
Lemma escalation_count_matches_history_witness :
  exists d' esc',
    fst (StateManager.add_escalation Sample.clock Json.loads Sample.task
           "reason B" (Some "resp") Sample.escalated_world)
    = Py.Ok (Py.VDict d') /\
    Py.dict_get d' "escalation" = Some (Py.VDict esc') /\
    Py.dict_get esc' "count" = Some (Py.VInt 2) /\
    Py.dict_get esc' "history" =
      Some (Py.VList
              [ StateManager.history_entry (Sample.clock 2) "reason A" None;
                StateManager.history_entry (Sample.clock 4) "reason B"
                  (Some "resp") ]).
Proof.
  destruct (escalation_count_matches_history Sample.clock Json.loads
              Sample.task) as (_ & _ & H).
  destruct (H Sample.escalated_world Sample.escalated_world
              (Sample.record_of_world Sample.escalated_world)
              (Sample.escalation_of_world Sample.escalated_world)
              1 (Sample.history_of_world Sample.escalated_world)
              "reason B" (Some "resp"))
    as (d' & esc' & E & H1 & H2 & H3 & _); try (vm_compute; reflexivity).
  exists d', esc'. rewrite E. repeat split; assumption.
Defined.

(** The cases of the specification for the current step and for the
    retries, run on the sample task. *)
Example current_step_all_pending :
  StateManager.get_current_step Sample.clock Json.loads Sample.task
    Sample.fresh_world
  = (Py.Ok "design", Sample.fresh_world).
Proof. vm_compute. reflexivity. Qed.

Example current_step_all_completed :
  StateManager.get_current_step Sample.clock Json.loads Sample.task
    Sample.completed_world
  = (Py.Ok "review", Sample.completed_world).
Proof. vm_compute. reflexivity. Qed.

Example three_retries_exhaust :
  Py.dict_get (Sample.record_of_world Sample.retried_world) "retry_count"
  = Some (Py.VInt 3) /\
  StateManager.can_retry Sample.clock Json.loads Sample.task
    Sample.retried_world
  = (Py.Ok false, Sample.retried_world).
Proof. split; vm_compute; reflexivity. Qed.

(** ** The LLM client *)

Section LLMClientFacts.
Import Py LLMClient.

Variable subprocess_run : list string -> cval -> run_outcome.
Variable http_chat : cval -> chat_request -> cval -> http_outcome.
Variable strip : string -> string.
Variable format : cval -> string.
Variable path_exists : string -> bool.
Variable path_read_text : string -> string + string.
Variable path_name : string -> string.

Local Abbreviation invoke := (invoke subprocess_run http_chat strip format).
Local Abbreviation invoke_with_files :=
  (invoke_with_files subprocess_run http_chat strip format
     path_exists path_read_text path_name).
Local Abbreviation _invoke_claude := (_invoke_claude subprocess_run strip format).

Lemma supported_has_defaults llm_type :
  In llm_type SUPPORTED_TYPES ->
  existsb (String.eqb llm_type) SUPPORTED_TYPES = true /\
  exists defaults, dict_get DEFAULT_CONFIGS llm_type = Some defaults.
Proof.
  intros [<-|[<-|[<-|[]]]]; (split; [reflexivity|eexists; reflexivity]).
Qed.

Lemma unsupported_not_found llm_type :
  ~ In llm_type SUPPORTED_TYPES ->
  existsb (String.eqb llm_type) SUPPORTED_TYPES = false.
Proof.
  intros H. destruct (existsb _ SUPPORTED_TYPES) eqn:E; [|reflexivity].
  apply existsb_exists in E as (x & Hx & E).
  apply String.eqb_eq in E. now subst.
Qed.

(** C9.  The constructor raises [ValueError] for a kind outside the
    supported ones, at once, and builds the client of a supported
    kind, with the given configuration over the defaults of the kind. *)
Theorem init_checks_kind llm_type config :
  (In llm_type SUPPORTED_TYPES ->
   exists defaults,
     dict_get DEFAULT_CONFIGS llm_type = Some defaults /\
     __init__ llm_type config =
       Ok (mkClient llm_type
             (dict_merge defaults
                (match config with Some c => c | None => [] end)))) /\
  (~ In llm_type SUPPORTED_TYPES ->
   exists msg, __init__ llm_type config = Raise (ValueError msg)) /\
  ((exists msg, __init__ llm_type config = Raise (ValueError msg)) <->
   ~ In llm_type SUPPORTED_TYPES).
Proof.
  assert (A : In llm_type SUPPORTED_TYPES ->
              exists defaults,
                dict_get DEFAULT_CONFIGS llm_type = Some defaults /\
                __init__ llm_type config =
                  Ok (mkClient llm_type
                        (dict_merge defaults
                           (match config with Some c => c | None => [] end)))).
  { intros H. destruct (supported_has_defaults llm_type H) as (E & defaults & D).
    exists defaults. split; [exact D|].
    unfold __init__. now rewrite E, D. }
  assert (B : ~ In llm_type SUPPORTED_TYPES ->
              exists msg, __init__ llm_type config = Raise (ValueError msg)).
  { intros H. unfold __init__.
    rewrite (unsupported_not_found llm_type H). eexists; reflexivity. }
  split; [exact A|]. split; [exact B|]. split; [|exact B].
  intros (msg & E) H. destruct (A H) as (defaults & _ & E').
  rewrite E' in E. discriminate E.
Qed.

(** C10.  With no context file, [invoke_with_files] is [invoke] on the
    same prompt, system prompt and timeout. *)
Theorem invoke_with_no_files c prompt system timeout :
  invoke_with_files c prompt [] system timeout =
  invoke c prompt system timeout.
Proof. reflexivity. Qed.

(** A timeout that is given and is not zero is the one of the call;
    without one, the configured timeout is. *)
Lemma effective_timeout_given c t :
  t <> 0 -> effective_timeout c (Some t) = CInt t.
Proof.
  intros H. unfold effective_timeout, truthy.
  destruct (Z.eqb_spec t 0); [contradiction|reflexivity].
Qed.

Lemma effective_timeout_default c :
  effective_timeout c None = config_get c "timeout".
Proof. reflexivity. Qed.

Lemma invoke_claude_timeout c prompt system t :
  llm_type c = "claude" -> t <> 0 ->
  invoke c prompt system (Some t) = _invoke_claude c prompt system (CInt t).
Proof.
  intros Hc Ht. unfold LLMClient.invoke.
  now rewrite Hc, (effective_timeout_given c t Ht).
Qed.

(** C8 at a timeout of zero: the call is made with the configured
    timeout, as if no timeout had been given; for the default Claude
    client that is 120 seconds. *)
Theorem invoke_ignores_zero_timeout c prompt system :
  effective_timeout c (Some 0) = config_get c "timeout" /\
  invoke c prompt system (Some 0) = invoke c prompt system None /\
  effective_timeout SampleClient.claude (Some 0) = CInt 120 /\
  invoke SampleClient.claude prompt system (Some 0) =
    _invoke_claude SampleClient.claude prompt system (CInt 120).
Proof. repeat split. Qed.

End LLMClientFacts.

(** C9 at the Claude kind without configuration and at an unknown
    kind. *)
Lemma init_checks_kind_witness :
  LLMClient.__init__ "claude" None = Py.Ok SampleClient.claude /\
  exists msg, LLMClient.__init__ "gpt" None = Py.Raise (Py.ValueError msg).
Proof.
  split.
  - destruct (proj1 (init_checks_kind "claude" None)) as (defaults & D & E).
    + simpl. auto.
    + rewrite E. vm_compute in D. injection D as <-. reflexivity.
  - apply (proj1 (proj2 (init_checks_kind "gpt" None))).
    simpl. intuition discriminate.
Defined.

(** * Further properties of the two modules *)

(** ** The state manager *)

Section StoreBehaviour.
Import Py Json StateManager StoreSpec.
Local Open Scope py_scope.

Variable now : nat -> string.
Variable json_loads : string -> option value.
Variable task_id : string.

Local Abbreviation save := (save now).
Local Abbreviation stamped := (stamped now).
Local Abbreviation init_state := (init_state now task_id).
Local Abbreviation load := (load now json_loads task_id).
Local Abbreviation update_status := (update_status now json_loads task_id).
Local Abbreviation update_step := (update_step now json_loads task_id).
Local Abbreviation increment_retry := (increment_retry now json_loads task_id).
Local Abbreviation add_escalation := (add_escalation now json_loads task_id).
Local Abbreviation get_current_step := (get_current_step now json_loads task_id).
Local Abbreviation can_retry := (can_retry now json_loads task_id).
Local Abbreviation is_completed := (is_completed now json_loads task_id).
Local Abbreviation is_failed := (is_failed now json_loads task_id).
Local Abbreviation run := (run now json_loads task_id).

(** The save of a record that can be encoded. *)
Lemma save_encodable d w :
  serialisable (VDict d) = true ->
  save (VDict d) w =
    (Ok (stamped d w),
     mkWorld (Directory (Some (json_dumps (stamped d w)))) (S (ticks w))).
Proof.
  intros Hd. rewrite save_dict.
  assert (Hs : serialisable (stamped d w) = true)
    by (apply serialisable_dict_set; [exact Hd|reflexivity]).
  now rewrite Hs.
Qed.

Lemma stamped_frame d w k :
  k <> "updated_at" ->
  dict_get (dict_set d "updated_at" (VStr (now (ticks w)))) k = dict_get d k.
Proof. intros H. now apply dict_get_set_other. Qed.

(** [update_status] sets the status to any string it is given, stamps
    the record, writes it and leaves every other field. *)
Theorem update_status_sets w w1 d new_status :
  load w = (Ok (VDict d), w1) ->
  serialisable (VDict d) = true ->
  exists d',
    update_status new_status w =
      (Ok (VDict d'),
       mkWorld (Directory (Some (json_dumps (VDict d')))) (S (ticks w1))) /\
    dict_get d' "status" = Some (VStr new_status) /\
    dict_get d' "updated_at" = Some (VStr (now (ticks w1))) /\
    (forall k, k <> "status" -> k <> "updated_at" ->
               dict_get d' k = dict_get d k).
Proof.
  intros Hl Hd.
  unfold StateManager.update_status, bind. rewrite Hl. unfold lift.
  cbn [py_setitem]. rewrite save_encodable
    by (apply serialisable_dict_set; [exact Hd|reflexivity]).
  eexists. split; [reflexivity|].
  split; [rewrite stamped_frame by discriminate; apply dict_get_set_same|].
  split; [apply dict_get_set_same|].
  intros k H1 H2. rewrite stamped_frame by exact H2.
  now apply dict_get_set_other.
Qed.

(** [increment_retry] adds one to the retry count, an absent count
    being 0, and leaves every other field but [updated_at]. *)
Theorem increment_retry_adds_one w w1 d n :
  load w = (Ok (VDict d), w1) ->
  serialisable (VDict d) = true ->
  int_field d "retry_count" 0 n ->
  exists d',
    increment_retry w =
      (Ok (VDict d'),
       mkWorld (Directory (Some (json_dumps (VDict d')))) (S (ticks w1))) /\
    dict_get d' "retry_count" = Some (VInt (n + 1)) /\
    (forall k, k <> "retry_count" -> k <> "updated_at" ->
               dict_get d' k = dict_get d k).
Proof.
  intros Hl Hd Hn.
  unfold StateManager.increment_retry, bind. rewrite Hl. unfold lift.
  cbn [py_get]. unfold int_field in Hn.
  assert (Hget : match dict_get d "retry_count" with
                 | Some v => Ok v
                 | None => Ok (VInt 0)
                 end = Ok (VInt n))
    by (destruct (dict_get d "retry_count"); now subst).
  rewrite Hget. cbn [py_add1 py_setitem]. rewrite save_encodable
    by (apply serialisable_dict_set; [exact Hd|reflexivity]).
  eexists. split; [reflexivity|].
  split; [rewrite stamped_frame by discriminate; apply dict_get_set_same|].
  intros k H1 H2. rewrite stamped_frame by exact H2.
  now apply dict_get_set_other.
Qed.

(** [is_completed] and [is_failed] answer by the status field alone, do
    nothing but the load, and are never both true. *)
Theorem completed_and_failed_by_status w w1 d :
  load w = (Ok (VDict d), w1) ->
  exists c f,
    is_completed w = (Ok c, w1) /\
    is_failed w = (Ok f, w1) /\
    (c = true <-> dict_get d "status" = Some (VStr "COMPLETED")) /\
    (f = true <-> dict_get d "status" = Some (VStr "FAILED")) /\
    (c && f = false).
Proof.
  intros Hl.
  unfold StateManager.is_completed, StateManager.is_failed, bind.
  rewrite Hl. unfold lift, ret. cbn [py_get].
  destruct (dict_get d "status") as [v|]; do 2 eexists;
    (split; [reflexivity|]); (split; [reflexivity|]);
    rewrite ?py_eq_str.
  - destruct v as [ |b|z|s|l|d0|n];
      try (repeat split; intros; (discriminate || reflexivity)).
    unfold Status.COMPLETED, Status.FAILED.
    split; [|split].
    + rewrite String.eqb_eq. split; [now intros ->|now intros [= ->]].
    + rewrite String.eqb_eq. split; [now intros ->|now intros [= ->]].
    + destruct (String.eqb_spec s "COMPLETED") as [->|]; reflexivity.
  - repeat split; intros; (discriminate || reflexivity).
Qed.

Lemma find_step_in wanted order state name :
  find_step wanted order state = Ok (Some name) -> In name order.
Proof.
  induction order as [|n order IH]; cbn [find_step]; [discriminate|].
  destruct (py_getitem state "steps") as [steps|]; [|discriminate].
  destruct (py_contains steps n) as [[|]|]; [| |discriminate].
  - destruct (py_getitem steps n) as [record|]; [|discriminate].
    destruct (py_get record "status" VNone) as [status|]; [|discriminate].
    destruct (py_eq status (VStr wanted)).
    + intros [= <-]. now left.
    + intros H. right. auto.
  - intros H. right. auto.
Qed.

(** Whatever the record, a step that [get_current_step] answers is one
    of the five of the fixed order. *)
Theorem get_current_step_in_order w name w' :
  get_current_step w = (Ok name, w') -> In name step_order.
Proof.
  unfold StateManager.get_current_step, bind, lift, ret.
  destruct (load w) as [[state|] w1]; [|discriminate].
  destruct (find_step "in_progress" step_order state) as [[n|]|] eqn:E1;
    [| |discriminate].
  - intros [= <- <-]. exact (find_step_in _ _ _ _ E1).
  - destruct (find_step "pending" step_order state) as [[n|]|] eqn:E2;
      [| |discriminate].
    + intros [= <- <-]. exact (find_step_in _ _ _ _ E2).
    + intros [= <- <-]. cbn. tauto.
Qed.

Lemma save_non_dict state w :
  is_dict state = false ->
  save state w =
    (Raise TypeError,
     mkWorld (match task_dir w with
              | Missing => Directory None
              | Directory f => Directory f
              end) (S (ticks w))).
Proof.
  intros H. destruct w as [[|f] n];
    destruct state; try discriminate H; reflexivity.
Qed.

(** [save] of a state that is not a dict raises [TypeError] at the
    assignment of [updated_at], after the clock was read and before the
    file is opened: the file keeps its text. *)
Theorem save_rejects_non_dict state w :
  is_dict state = false ->
  fst (save state w) = Raise TypeError /\
  state_file (snd (save state w)) = state_file w /\
  ticks (snd (save state w)) = S (ticks w).
Proof.
  intros H. rewrite (save_non_dict state w H).
  destruct w as [[|f] n]; repeat split.
Qed.

(** A record without [steps] or without [escalation]: the operations
    that read the missing key raise [KeyError] for it and write
    nothing. *)
Theorem missing_keys_raise w w1 d :
  load w = (Ok (VDict d), w1) ->
  (dict_get d "steps" = None ->
   (forall step_name kwargs,
       update_step step_name kwargs w = (Raise (KeyError "steps"), w1)) /\
   get_current_step w = (Raise (KeyError "steps"), w1)) /\
  (dict_get d "escalation" = None ->
   forall reason response,
     add_escalation reason response w =
       (Raise (KeyError "escalation"), mkWorld (task_dir w1) (S (ticks w1)))).
Proof.
  intros Hl. split.
  - intros Hs. split.
    + intros step_name kwargs.
      unfold StateManager.update_step, bind. rewrite Hl. unfold lift.
      cbn [py_getitem]. now rewrite Hs.
    + unfold StateManager.get_current_step, bind. rewrite Hl. unfold lift.
      cbn [step_order find_step py_getitem]. now rewrite Hs.
  - intros He reason response.
    unfold StateManager.add_escalation, bind. rewrite Hl.
    unfold _get_timestamp, lift. cbn [py_getitem]. now rewrite He.
Qed.

(** A record that decodes to something else than an object: every
    operation that works on the record raises [TypeError] or
    [AttributeError], and the directory is as the load left it. *)
Theorem operations_need_an_object w w1 v o :
  load w = (Ok v, w1) -> is_dict v = false -> needs_record o = true ->
  exists e w',
    run o w = (Raise e, w') /\
    (e = TypeError \/ e = AttributeError) /\
    task_dir w' = task_dir w1.
Proof.
  intros Hl Hv Ho.
  destruct o; try discriminate Ho; cbn [StateManager.run];
    unfold answering, StateManager.update_status, StateManager.update_step,
      StateManager.increment_retry, StateManager.add_escalation,
      StateManager.get_current_step, StateManager.can_retry,
      StateManager.is_completed, StateManager.is_failed, bind;
    rewrite Hl; unfold _get_timestamp, lift;
    destruct v; try discriminate Hv;
    do 2 eexists; (split; [reflexivity|]); (split; [|reflexivity]); auto.
Qed.

(** [init_state] does not read what is there: it returns and writes a
    new record that depends on the clock alone, created at the first
    reading and stamped at the second, with the maximum it is given. *)
Theorem init_state_overwrites w max_retries :
  exists d,
    init_state max_retries w =
      (Ok (VDict d),
       mkWorld (Directory (Some (json_dumps (VDict d)))) (S (S (ticks w)))) /\
    dict_get d "created_at" = Some (VStr (now (ticks w))) /\
    dict_get d "updated_at" = Some (VStr (now (S (ticks w)))) /\
    dict_get d "max_retries" = Some (VInt max_retries) /\
    (forall w', ticks w' = ticks w ->
                init_state max_retries w' = init_state max_retries w).
Proof.
  assert (E : forall w0 w', ticks w' = ticks w0 ->
                init_state max_retries w' = init_state max_retries w0).
  { intros w0 w' Ht.
    unfold StateManager.init_state, bind, mkdir, _get_timestamp.
    cbn [fst snd task_dir ticks]. rewrite !save_dict.
    unfold StateManager.stamped. cbn [task_dir ticks]. now rewrite Ht. }
  assert (F : exists d,
             init_state max_retries w =
               (Ok (VDict d),
                mkWorld (Directory (Some (json_dumps (VDict d))))
                        (S (S (ticks w)))) /\
             dict_get d "created_at" = Some (VStr (now (ticks w))) /\
             dict_get d "updated_at" = Some (VStr (now (S (ticks w)))) /\
             dict_get d "max_retries" = Some (VInt max_retries)).
  { unfold StateManager.init_state, bind, mkdir, _get_timestamp.
    cbn [fst snd task_dir ticks]. rewrite save_dict.
    cbn [task_dir ticks]. unfold StateManager.stamped, json_dumps.
    cbn [dict_set String.eqb Ascii.eqb Bool.eqb]. cbn [ticks].
    eexists. split; [reflexivity|]. repeat split. }
  destruct F as (d & F1 & F2 & F3 & F4). exists d.
  split; [exact F1|]. split; [exact F2|]. split; [exact F3|].
  split; [exact F4|exact (E w)].
Qed.

(** [update_step] on a loaded record: what it hands to [save]. *)
Lemma update_step_after_load w w1 d steps step_name kwargs :
  load w = (Ok (VDict d), w1) ->
  dict_get d "steps" = Some (VDict steps) ->
  (forall r, dict_get steps step_name = Some r ->
             exists record, r = VDict record) ->
  update_step step_name kwargs w =
  save (VDict (dict_set d "steps"
                 (VDict (dict_set steps step_name
                           (VDict (dict_merge (record_of steps step_name)
                                     kwargs)))))) w1.
Proof.
  intros Hl Hs Hwf.
  unfold StateManager.update_step, bind. rewrite Hl. unfold lift.
  cbn [py_getitem]. rewrite Hs. cbn [py_contains]. unfold dict_mem.
  assert (M := merge_fields_merge step_name kwargs d steps
                 (record_of steps step_name)).
  unfold record_of in *.
  destruct (dict_get steps step_name) as [r|] eqn:Hr; cbn [negb].
  - destruct (Hwf r eq_refl) as [rd ->]. unfold ret.
    rewrite (dict_set_get_id steps _ _ Hr), (dict_set_get_id d _ _ Hs) in M.
    now rewrite M.
  - cbn [at_path py_getitem]. rewrite Hs. cbn [at_path py_setitem].
    now rewrite M.
Qed.

(** [update_step] never removes a step: the steps keep their names and
    their order, and the named step is added last when it was not
    there. *)
Theorem update_step_keeps_steps w w1 d steps step_name kwargs :
  load w = (Ok (VDict d), w1) ->
  dict_get d "steps" = Some (VDict steps) ->
  (forall r, dict_get steps step_name = Some r ->
             exists record, r = VDict record) ->
  serialisable (VDict d) = true -> serialisable (VDict kwargs) = true ->
  exists d' steps',
    fst (update_step step_name kwargs w) = Ok (VDict d') /\
    dict_get d' "steps" = Some (VDict steps') /\
    map fst steps' =
      (if dict_mem steps step_name then map fst steps
       else map fst steps ++ [step_name])%list /\
    (forall name, dict_mem steps name = true -> dict_mem steps' name = true).
Proof.
  intros Hl Hs Hwf Hd Hk.
  rewrite (update_step_after_load w w1 d steps step_name kwargs Hl Hs Hwf).
  assert (Hsteps : serialisable (VDict steps) = true)
    by exact (serialisable_dict_get d "steps" _ Hd Hs).
  assert (Hrec : serialisable (VDict (record_of steps step_name)) = true).
  { unfold record_of.
    destruct (dict_get steps step_name) as [r|] eqn:Hr; [|reflexivity].
    destruct (Hwf r eq_refl) as [rd ->].
    exact (serialisable_dict_get steps step_name _ Hsteps Hr). }
  rewrite save_encodable.
  2:{ apply serialisable_dict_set; [exact Hd|].
      apply serialisable_dict_set; [exact Hsteps|].
      now apply serialisable_dict_merge. }
  do 2 eexists. split; [reflexivity|].
  split; [rewrite stamped_frame by discriminate; apply dict_get_set_same|].
  split; [apply dict_set_keys|].
  intros name Hn. unfold dict_mem in *.
  destruct (String.eqb_spec name step_name) as [->|Hne].
  - now rewrite dict_get_set_same.
  - now rewrite dict_get_set_other.
Qed.

(** A step whose entry is not a record: an update with fields raises
    [TypeError] at the first assignment and writes nothing. *)
Theorem update_step_needs_a_record w w1 d steps step_name r key v kwargs :
  load w = (Ok (VDict d), w1) ->
  dict_get d "steps" = Some (VDict steps) ->
  dict_get steps step_name = Some r -> is_dict r = false ->
  update_step step_name ((key, v) :: kwargs) w = (Raise TypeError, w1).
Proof.
  intros Hl Hs Hr Hd.
  unfold StateManager.update_step, bind. rewrite Hl. unfold lift.
  cbn [py_getitem]. rewrite Hs. cbn [py_contains]. unfold dict_mem.
  rewrite Hr. cbn [negb]. unfold ret.
  cbn [merge_fields at_path py_getitem]. rewrite Hs. cbn [py_getitem].
  rewrite Hr. destruct r; try discriminate Hd; reflexivity.
Qed.

(** An update without fields of a step that is there is a save of the
    loaded record: nothing changes but [updated_at]. *)
Theorem update_step_without_fields w w1 d steps step_name record :
  load w = (Ok (VDict d), w1) ->
  dict_get d "steps" = Some (VDict steps) ->
  dict_get steps step_name = Some (VDict record) ->
  update_step step_name [] w = save (VDict d) w1.
Proof.
  intros Hl Hs Hr.
  rewrite (update_step_after_load w w1 d steps step_name [] Hl Hs).
  - unfold record_of. rewrite Hr. cbn [dict_merge fold_left].
    now rewrite (dict_set_get_id steps _ _ Hr), (dict_set_get_id d _ _ Hs).
  - intros r. rewrite Hr. intros [= <-]. now exists record.
Qed.

(** A counter that is there but is [null] (or an object): the default
    of [get] does not apply, and the arithmetic raises [TypeError]
    before anything is written. *)
Theorem null_counters_raise w w1 d v :
  load w = (Ok (VDict d), w1) -> unordered v = true ->
  (dict_get d "retry_count" = Some v ->
   increment_retry w = (Raise TypeError, w1)) /\
  (dict_get d "retry_count" = Some v \/ dict_get d "max_retries" = Some v ->
   can_retry w = (Raise TypeError, w1)) /\
  (forall esc reason response,
      dict_get d "escalation" = Some (VDict esc) ->
      dict_get esc "count" = Some v ->
      add_escalation reason response w =
        (Raise TypeError, mkWorld (task_dir w1) (S (ticks w1)))).
Proof.
  intros Hl Hv. split; [|split].
  - intros Hn. unfold StateManager.increment_retry, bind. rewrite Hl.
    unfold lift. cbn [py_get]. rewrite Hn.
    destruct v; try discriminate Hv; reflexivity.
  - intros H. unfold StateManager.can_retry, bind. rewrite Hl.
    unfold lift. cbn [py_get]. destruct H as [H|H]; rewrite H.
    + destruct (dict_get d "max_retries");
        destruct v; try discriminate Hv; reflexivity.
    + destruct (dict_get d "retry_count") as [n|];
        [destruct n|]; destruct v; try discriminate Hv; reflexivity.
  - intros esc reason response He Hc.
    unfold StateManager.add_escalation, bind. rewrite Hl.
    unfold _get_timestamp, lift. cbn [py_getitem]. rewrite He.
    cbn [py_get]. rewrite Hc. destruct v; try discriminate Hv; reflexivity.
Qed.

(** [save] changes [updated_at] and nothing else: the other fields keep
    their values, and all keep their order, [updated_at] going last
    when it was not there. *)
Theorem save_stamps_only d w :
  serialisable (VDict d) = true ->
  exists d',
    save (VDict d) w =
      (Ok (VDict d'),
       mkWorld (Directory (Some (json_dumps (VDict d')))) (S (ticks w))) /\
    dict_get d' "updated_at" = Some (VStr (now (ticks w))) /\
    (forall k, k <> "updated_at" -> dict_get d' k = dict_get d k) /\
    map fst d' =
      (if dict_mem d "updated_at" then map fst d
       else map fst d ++ ["updated_at"])%list.
Proof.
  intros Hd. rewrite (save_encodable d w Hd). eexists.
  split; [reflexivity|]. split; [apply dict_get_set_same|].
  split; [intros k Hk; now apply dict_get_set_other|apply dict_set_keys].
Qed.


Lemma save_ok_persisted state w state' w' :
  save state w = (Ok state', w') ->
  state_file w' = Some (json_dumps state').
Proof.
  destruct (is_dict state) eqn:Hd.
  - destruct state as [ | | | | |d| ]; try discriminate Hd.
    rewrite save_dict. destruct (serialisable (stamped d w)); [|discriminate].
    now intros [= <- <-].
  - rewrite (save_non_dict state w Hd). discriminate.
Qed.

Lemma load_ok_persisted w state w' :
  load w = (Ok state, w') ->
  json_loads (json_dumps state) = Some state ->
  load w' = (Ok state, w').
Proof.
  intros E Hr. destruct (state_file w) as [text|] eqn:Hf.
  - assert (w' = w)
      by (apply (load_reads_only now json_loads task_id w state w');
          [congruence|exact E]).
    now subst.
  - rewrite (load_missing now json_loads task_id w Hf) in E.
    destruct (init_state_consistent now task_id 3 w) as (st & E' & _).
    rewrite E' in E. injection E as <- <-.
    now apply (load_existing _ _ _ _ (json_dumps st)).
Qed.

(** The state that an operation returns is the state in the file: a
    load that follows, with a decoder that inverts the encoder on that
    state, returns it and changes nothing. *)
Theorem returned_state_is_persisted o w state w' :
  run o w = (Ok (State state), w') ->
  json_loads (json_dumps state) = Some state ->
  load w' = (Ok state, w').
Proof.
  intros H Hr.
  assert (P : (exists w0, load w0 = (Ok state, w')) \/
              state_file w' = Some (json_dumps state)).
  { destruct o; cbn [StateManager.run] in H;
      unfold answering, bind, ret in H.
    - right. destruct (init_state_consistent now task_id max_retries w)
        as (st & E & _).
      rewrite E in H. now injection H as <- <-.
    - left. exists w. destruct (load w) as [[st|] w1]; [|discriminate H].
      now injection H as <- <-.
    - right. destruct (save state0 w) as [[st|] w1] eqn:E; [|discriminate H].
      injection H as <- <-. exact (save_ok_persisted _ _ _ _ E).
    - right. destruct (update_status new_status w) as [[st|] w1] eqn:E;
        [|discriminate H].
      injection H as <- <-.
      unfold StateManager.update_status, bind, lift in E.
      destruct (load w) as [[s0|] w0]; [|discriminate E].
      destruct (py_setitem s0 "status" (VStr new_status)) as [s1|];
        [|discriminate E].
      exact (save_ok_persisted _ _ _ _ E).
    - right. destruct (update_step step_name kwargs w) as [[st|] w1] eqn:E;
        [|discriminate H].
      injection H as <- <-.
      unfold StateManager.update_step, bind, lift, ret in E.
      destruct (load w) as [[s0|] w0]; [|discriminate E].
      destruct (py_getitem s0 "steps") as [steps|]; [|discriminate E].
      destruct (py_contains steps step_name) as [[|]|]; cbn [negb] in E;
        [| |discriminate E].
      + destruct (merge_fields step_name kwargs s0) as [s2|];
          [|discriminate E].
        exact (save_ok_persisted _ _ _ _ E).
      + destruct (at_path s0 ["steps"] _) as [s1|]; [|discriminate E].
        destruct (merge_fields step_name kwargs s1) as [s2|];
          [|discriminate E].
        exact (save_ok_persisted _ _ _ _ E).
    - right. destruct (increment_retry w) as [[st|] w1] eqn:E;
        [|discriminate H].
      injection H as <- <-.
      unfold StateManager.increment_retry, bind, lift in E.
      destruct (load w) as [[s0|] w0]; [|discriminate E].
      destruct (py_get s0 "retry_count" (VInt 0)) as [n|]; [|discriminate E].
      destruct (py_add1 n) as [n'|]; [|discriminate E].
      destruct (py_setitem s0 "retry_count" n') as [s1|]; [|discriminate E].
      exact (save_ok_persisted _ _ _ _ E).
    - right. destruct (add_escalation reason response w) as [[st|] w1] eqn:E;
        [|discriminate H].
      injection H as <- <-.
      unfold StateManager.add_escalation, bind, lift, _get_timestamp in E.
      destruct (load w) as [[s0|] w0]; [|discriminate E].
      destruct (py_getitem s0 "escalation") as [esc|]; [|discriminate E].
      destruct (py_get esc "count" (VInt 0)) as [n|]; [|discriminate E].
      destruct (py_add1 n) as [n'|]; [|discriminate E].
      destruct (at_path s0 ["escalation"] _) as [s1|]; [|discriminate E].
      destruct (at_path s1 ["escalation"; "history"] _) as [s2|];
        [|discriminate E].
      exact (save_ok_persisted _ _ _ _ E).
    - destruct (get_current_step w) as [[?|] ?]; discriminate H.
    - destruct (can_retry w) as [[?|] ?]; discriminate H.
    - destruct (is_completed w) as [[?|] ?]; discriminate H.
    - destruct (is_failed w) as [[?|] ?]; discriminate H. }
  destruct P as [[w0 E]|Hf].
  - exact (load_ok_persisted w0 state w' E Hr).
  - now apply (load_existing _ _ _ _ (json_dumps state)).
Qed.

Lemma unencodable_value kwargs :
  serialisable (VDict kwargs) = false ->
  exists k v, In (k, v) kwargs /\ serialisable v = false.
Proof.
  induction kwargs as [|[k v] kwargs IH]; [discriminate|].
  rewrite serialisable_dict_cons. destruct (serialisable v) eqn:Hv.
  - cbn [andb]. intros H. destruct (IH H) as (k' & v' & Hin & Hv').
    exists k', v'. split; [now right|exact Hv'].
  - intros _. exists k, v. split; [now left|exact Hv].
Qed.

Lemma dict_get_of_In {V} (d : list (string * V)) k v :
  NoDup (map fst d) -> In (k, v) d -> dict_get d k = Some v.
Proof.
  induction d as [|[k0 v0] d IH]; cbn [map fst In dict_get]; [easy|].
  intros Hnd [E|Hin].
  - injection E as -> ->. now rewrite String.eqb_refl.
  - inversion Hnd as [|? ? Hk0 Hnd']; subst.
    destruct (String.eqb_spec k k0) as [->|Hne].
    + exfalso. apply Hk0. now apply (in_map fst d (k0, v)).
    + now apply IH.
Qed.

Lemma unencodable_entry d k v :
  dict_get d k = Some v -> serialisable v = false ->
  serialisable (VDict d) = false.
Proof.
  intros Hk Hv. destruct (serialisable (VDict d)) eqn:Hd; [|reflexivity].
  rewrite (serialisable_dict_get d k v Hd Hk) in Hv. discriminate Hv.
Qed.

(** Fields of which a value has no JSON form: [update_step] merges them
    in memory, and the save then raises [TypeError] after the file was
    emptied, so that the file holds the beginning, cut short, of the
    record that was to be written. *)
Theorem update_step_unencodable w w1 d steps step_name kwargs :
  load w = (Ok (VDict d), w1) ->
  dict_get d "steps" = Some (VDict steps) ->
  (forall r, dict_get steps step_name = Some r ->
             exists record, r = VDict record) ->
  NoDup (map fst kwargs) ->
  serialisable (VDict kwargs) = false ->
  let state' :=
    stamped
      (dict_set d "steps"
         (VDict (dict_set steps step_name
                   (VDict (dict_merge (record_of steps step_name) kwargs)))))
      w1 in
  update_step step_name kwargs w =
    (Raise TypeError,
     mkWorld (Directory (Some (fst (iterencode 0 state')))) (S (ticks w1))) /\
  (forall f, (forall n, serialisable (f n) = true) ->
             cut_short (fst (iterencode 0 state')) (json_dumps (patch f state'))).
Proof.
  intros Hl Hs Hwf Hnd Hk state'.
  assert (Hbad : serialisable state' = false).
  { destruct (unencodable_value kwargs Hk) as (k & v & Hin & Hv).
    unfold state', StateManager.stamped.
    eapply (unencodable_entry _ "steps");
      [rewrite dict_get_set_other by discriminate; apply dict_get_set_same|].
    eapply (unencodable_entry _ step_name); [apply dict_get_set_same|].
    eapply (unencodable_entry _ k); [|exact Hv].
    rewrite dict_get_merge by exact Hnd.
    now rewrite (dict_get_of_In kwargs k v Hnd Hin). }
  split.
  - rewrite (update_step_after_load w w1 d steps step_name kwargs Hl Hs Hwf).
    rewrite save_dict. fold state'. now rewrite Hbad.
  - intros f Hf. now apply iterencode_cut_short.
Qed.

End StoreBehaviour.

(** ** The LLM client *)

Section ClientBehaviour.
Import Py Json LLMClient ClientSpec.

Variable subprocess_run : list string -> cval -> run_outcome.
Variable http_chat : cval -> chat_request -> cval -> http_outcome.
Variable strip : string -> string.
Variable format : cval -> string.
Variable path_exists : string -> bool.
Variable path_read_text : string -> string + string.
Variable path_name : string -> string.

Local Abbreviation invoke := (invoke subprocess_run http_chat strip format).
Local Abbreviation invoke_with_files :=
  (invoke_with_files subprocess_run http_chat strip format
     path_exists path_read_text path_name).
Local Abbreviation _invoke_claude := (_invoke_claude subprocess_run strip format).
Local Abbreviation _invoke_gemini := (_invoke_gemini subprocess_run strip format).
Local Abbreviation _invoke_lfm := (_invoke_lfm http_chat format).
Local Abbreviation context_parts :=
  (context_parts path_exists path_read_text path_name).

Lemma dict_get_merge_absent {V} (a b : list (string * V)) k :
  dict_get b k = None -> dict_get (dict_merge a b) k = dict_get a k.
Proof.
  revert a. induction b as [|[k0 v0] b IH]; intros a Hb; [reflexivity|].
  cbn [dict_get] in Hb. destruct (String.eqb_spec k k0); [discriminate|].
  rewrite dict_merge_cons, (IH _ Hb). now apply dict_get_set_other.
Qed.

Lemma dict_merge_keeps {V} (a b : list (string * V)) k :
  dict_mem a k = true -> dict_mem (dict_merge a b) k = true.
Proof.
  revert a. induction b as [|[k0 v0] b IH]; intros a Ha; [exact Ha|].
  rewrite dict_merge_cons. apply IH. unfold dict_mem in *.
  destruct (String.eqb_spec k k0) as [->|Hne].
  - now rewrite dict_get_set_same.
  - now rewrite dict_get_set_other.
Qed.

(** The configuration of a client: a key the caller gives has the
    caller's value, another key has the default of the kind. *)
Theorem init_overrides_defaults llm_type config :
  In llm_type SUPPORTED_TYPES -> NoDup (map fst config) ->
  exists c defaults,
    __init__ llm_type (Some config) = Ok c /\
    LLMClient.llm_type c = llm_type /\
    dict_get DEFAULT_CONFIGS llm_type = Some defaults /\
    forall k, dict_get (client_config c) k =
              match dict_get config k with
              | Some v => Some v
              | None => dict_get defaults k
              end.
Proof.
  intros Hk Hnd.
  destruct (supported_has_defaults llm_type Hk) as (E & defaults & D).
  unfold __init__. rewrite E, D. cbn [negb]. do 2 eexists.
  split; [reflexivity|]. split; [reflexivity|]. split; [reflexivity|].
  intros k. cbn [client_config]. now apply dict_get_merge.
Qed.

(** The three factories never fail, and the client of each calls the
    backend of its kind: the branch for an unknown kind is not reached. *)
Theorem factories_build_their_kind config prompt system timeout :
  exists claude gemini lfm,
    create_claude_client config = Ok claude /\
    create_gemini_client config = Ok gemini /\
    create_lfm_client config = Ok lfm /\
    invoke claude prompt system timeout =
      _invoke_claude claude prompt system (effective_timeout claude timeout) /\
    invoke gemini prompt system timeout =
      _invoke_gemini gemini prompt system (effective_timeout gemini timeout) /\
    invoke lfm prompt system timeout =
      _invoke_lfm lfm prompt system (effective_timeout lfm timeout).
Proof. do 3 eexists. repeat split. Qed.

(** A timeout given to a call, when it is not zero, does what the same
    timeout in the configuration does. *)
Theorem call_timeout_as_configured c prompt system t :
  t <> 0 ->
  invoke c prompt system (Some t) = invoke (with_timeout c t) prompt system None.
Proof.
  intros Ht. unfold LLMClient.invoke.
  rewrite (effective_timeout_given c t Ht).
  unfold effective_timeout, config_get, with_timeout.
  cbn [llm_type client_config]. rewrite dict_get_set_same.
  unfold LLMClient._invoke_claude, LLMClient._invoke_gemini, invoke_cli,
    LLMClient._invoke_lfm. cbn [client_config].
  now rewrite !dict_get_set_other by discriminate.
Qed.

(** An empty system prompt is no system prompt. *)
Theorem empty_system_is_none c prompt files timeout :
  invoke c prompt (Some EmptyString) timeout = invoke c prompt None timeout /\
  invoke_with_files c prompt files (Some EmptyString) timeout =
    invoke_with_files c prompt files None timeout.
Proof. split; reflexivity. Qed.

(** The loop over the context files, for files that are there and can
    be read: their labelled contents, in the order of the files. *)
Lemma context_parts_app contents good rest :
  (forall p, In p good ->
             path_exists p = true /\ path_read_text p = inr (contents p)) ->
  forall parts,
    context_parts (good ++ rest) parts =
    context_parts rest
      (parts ++ map (fun p => labelled (path_name p) (contents p)) good).
Proof.
  induction good as [|p good IH]; intros Hgood parts.
  - cbn [map app]. now rewrite app_nil_r.
  - destruct (Hgood p (or_introl eq_refl)) as [He Hr].
    cbn [app LLMClient.context_parts]. rewrite He, Hr. cbn [negb].
    rewrite IH by (intros q Hq; apply Hgood; now right).
    cbn [map]. now rewrite <- app_assoc.
Qed.

(** The first context file that is missing or cannot be read decides
    the error of [invoke_with_files], whatever follows it, and no
    backend is called. *)
Theorem first_bad_file_decides c prompt contents good bad rest system timeout :
  (forall p, In p good ->
             path_exists p = true /\ path_read_text p = inr (contents p)) ->
  (path_exists bad = false ->
   invoke_with_files c prompt (good ++ bad :: rest) system timeout =
     Raise (LLMError ("Context file not found: " ++ bad))) /\
  (forall e, path_exists bad = true -> path_read_text bad = inl e ->
   invoke_with_files c prompt (good ++ bad :: rest) system timeout =
     Raise (LLMError ("Failed to read file " ++ bad ++ ": " ++ e))).
Proof.
  intros Hgood. unfold LLMClient.invoke_with_files.
  rewrite (context_parts_app contents good (bad :: rest) Hgood).
  cbn [LLMClient.context_parts]. split.
  - now intros ->.
  - intros e -> ->. reflexivity.
Qed.

(** With context files that are all there and readable, the backend is
    asked the labelled contents, in the order of the files, and then
    the prompt; the system prompt and the timeout go through. *)
Theorem context_goes_before_prompt c prompt contents files system timeout :
  files <> [] ->
  (forall p, In p files ->
             path_exists p = true /\ path_read_text p = inr (contents p)) ->
  invoke_with_files c prompt files system timeout =
  invoke c
    (with_context (map (fun p => labelled (path_name p) (contents p)) files)
       prompt)
    system timeout.
Proof.
  intros Hne Hfiles. unfold LLMClient.invoke_with_files.
  rewrite <- (app_nil_r files) at 1.
  rewrite (context_parts_app contents files [] Hfiles).
  cbn [LLMClient.context_parts app].
  destruct files as [|p files]; [contradiction|]. reflexivity.
Qed.

Lemma supported_cases llm_type :
  existsb (String.eqb llm_type) SUPPORTED_TYPES = true ->
  llm_type = "claude" \/ llm_type = "gemini" \/ llm_type = "lfm".
Proof.
  intros H. apply existsb_exists in H as (x & Hx & E).
  apply String.eqb_eq in E. subst x.
  destruct Hx as [<-|[<-|[<-|[]]]]; auto.
Qed.

Lemma invoke_cli_returns_or_llm_error name cli c prompt system timeout l1 l2 :
  dict_get (client_config c) "command" = Some (CStrs l1) ->
  dict_get (client_config c) "args" = Some (CStrs l2) ->
  returns_or_llm_error
    (invoke_cli subprocess_run strip format name cli c prompt system timeout).
Proof.
  intros H1 H2. unfold invoke_cli. rewrite H1, H2. cbn [as_list].
  destruct (subprocess_run _ timeout) as [rc out err| | |e].
  - destruct (negb (rc =? 0)); [right|left]; eexists; reflexivity.
  - right; eexists; reflexivity.
  - right; eexists; reflexivity.
  - right; eexists; reflexivity.
Qed.

(** A client made by the constructor, with a configuration that leaves
    the command and its arguments to the defaults: whatever the process
    or the server does, [invoke] returns or raises [LLMError], and no
    other exception. *)
Theorem invoke_raises_only_llm_error llm_type config c prompt system timeout :
  __init__ llm_type config = Ok c ->
  dict_get (given config) "command" = None ->
  dict_get (given config) "args" = None ->
  returns_or_llm_error (invoke c prompt system timeout).
Proof.
  intros Hc H1 H2. unfold __init__ in Hc.
  destruct (existsb (String.eqb llm_type) SUPPORTED_TYPES) eqn:E;
    [|discriminate Hc].
  cbn [negb] in Hc. fold (given config) in Hc.
  destruct (supported_cases llm_type E) as [-> | [-> | ->]];
    cbn [DEFAULT_CONFIGS dict_get String.eqb Ascii.eqb Bool.eqb] in Hc;
    injection Hc as <-; unfold LLMClient.invoke;
    cbn [LLMClient.llm_type String.eqb Ascii.eqb Bool.eqb].
  - eapply invoke_cli_returns_or_llm_error; cbn [client_config];
      rewrite dict_get_merge_absent by assumption; reflexivity.
  - eapply invoke_cli_returns_or_llm_error; cbn [client_config];
      rewrite dict_get_merge_absent by assumption; reflexivity.
  - unfold LLMClient._invoke_lfm. cbn [client_config].
    match goal with
    | |- context [dict_merge ?a ?b] => set (cfg := dict_merge a b)
    end.
    assert (K : forall k, In k ["url"; "model"; "temperature"; "max_tokens"] ->
                          exists v, dict_get cfg k = Some v).
    { intros k Hk. apply dict_mem_true, dict_merge_keeps.
      cbn in Hk. destruct Hk as [<-|[<-|[<-|[<-|[]]]]]; reflexivity. }
    destruct (K "url") as [v1 ->]; [cbn; auto 6|].
    destruct (K "model") as [v2 ->]; [cbn; auto 6|].
    destruct (K "temperature") as [v3 ->]; [cbn; auto 6|].
    destruct (K "max_tokens") as [v4 ->]; [cbn; auto 6|].
    destruct (http_chat _ _ _); [left|right..]; eexists; reflexivity.
Qed.

(** The clients of the default configurations run [claude -p PROMPT
    --print] and [gemini -p PROMPT], the prompt after the system prompt
    when there is one, with the timeout of the call; when the process
    exits with 0 its stripped output is returned. *)
Theorem default_command_lines prompt system timeout out err :
  forall claude gemini,
    __init__ "claude" None = Ok claude ->
    __init__ "gemini" None = Ok gemini ->
    (subprocess_run ["claude"; "-p"; with_system system prompt; "--print"]
       (effective_timeout claude timeout) = Completed 0 out err ->
     invoke claude prompt system timeout = Ok (strip out)) /\
    (subprocess_run ["gemini"; "-p"; with_system system prompt]
       (effective_timeout gemini timeout) = Completed 0 out err ->
     invoke gemini prompt system timeout = Ok (strip out)).
Proof.
  intros claude gemini [= <-] [= <-]. split; intros H;
    unfold LLMClient.invoke, LLMClient._invoke_claude,
      LLMClient._invoke_gemini, invoke_cli;
    cbn [llm_type client_config dict_merge fold_left dict_get String.eqb
           Ascii.eqb Bool.eqb as_list app];
    now rewrite H.
Qed.

(** A command configured as a value that is not a list nor a string:
    the CLI backends raise [TypeError] before the process is run, which
    is not an [LLMError]. *)
Theorem command_must_be_iterable c v prompt system timeout :
  llm_type c = "claude" \/ llm_type c = "gemini" ->
  dict_get (client_config c) "command" = Some v ->
  not_iterable v = true ->
  invoke c prompt system timeout = Raise TypeError.
Proof.
  intros Hk Hc Hv. unfold LLMClient.invoke.
  destruct Hk as [-> | ->]; cbn [String.eqb Ascii.eqb Bool.eqb];
    unfold LLMClient._invoke_claude, LLMClient._invoke_gemini, invoke_cli;
    rewrite Hc; destruct v; try discriminate Hv; reflexivity.
Qed.

End ClientBehaviour.

(** ** The further properties on the sample data *)

Lemma update_status_sets_witness :
  exists d',
    fst (StateManager.update_status Sample.clock Json.loads Sample.task
           "DESIGNING" Sample.fresh_world) = Py.Ok (Py.VDict d') /\
    Py.dict_get d' "status" = Some (Py.VStr "DESIGNING").
Proof.
  destruct (update_status_sets Sample.clock Json.loads Sample.task
              Sample.fresh_world Sample.fresh_world
              (Sample.record_of_world Sample.fresh_world) "DESIGNING")
    as (d' & E & H & _); try (vm_compute; reflexivity).
  exists d'. rewrite E. split; [reflexivity|exact H].
Defined.

Lemma increment_retry_adds_one_witness :
  exists d',
    fst (StateManager.increment_retry Sample.clock Json.loads Sample.task
           Sample.fresh_world) = Py.Ok (Py.VDict d') /\
    Py.dict_get d' "retry_count" = Some (Py.VInt 1).
Proof.
  destruct (increment_retry_adds_one Sample.clock Json.loads Sample.task
              Sample.fresh_world Sample.fresh_world
              (Sample.record_of_world Sample.fresh_world) 0)
    as (d' & E & H & _); try (vm_compute; reflexivity).
  exists d'. rewrite E. split; [reflexivity|exact H].
Defined.

Lemma completed_and_failed_by_status_witness :
  exists c f,
    StateManager.is_completed Sample.clock Json.loads Sample.task
      Sample.fresh_world = (Py.Ok c, Sample.fresh_world) /\
    StateManager.is_failed Sample.clock Json.loads Sample.task
      Sample.fresh_world = (Py.Ok f, Sample.fresh_world) /\
    (c && f = false).
Proof.
  destruct (completed_and_failed_by_status Sample.clock Json.loads Sample.task
              Sample.fresh_world Sample.fresh_world
              (Sample.record_of_world Sample.fresh_world))
    as (c & f & H1 & H2 & _ & _ & H3); [vm_compute; reflexivity|].
  exists c, f. auto.
Defined.

Lemma get_current_step_in_order_witness :
  In "implementation" StateManager.step_order.
Proof.
  apply (get_current_step_in_order Sample.clock Json.loads Sample.task
           Sample.progress_world "implementation" Sample.progress_world).
  vm_compute. reflexivity.
Defined.

Lemma save_rejects_non_dict_witness :
  fst (StateManager.save Sample.clock (Py.VList []) Sample.fresh_world)
  = Py.Raise Py.TypeError /\
  StateManager.state_file
    (snd (StateManager.save Sample.clock (Py.VList []) Sample.fresh_world))
  = StateManager.state_file Sample.fresh_world.
Proof.
  destruct (save_rejects_non_dict Sample.clock (Py.VList [])
              Sample.fresh_world eq_refl) as (H1 & H2 & _).
  split; assumption.
Defined.

Lemma missing_keys_raise_witness :
  StateManager.get_current_step Sample.clock Json.loads Sample.task
    SampleStore.bare_world
  = (Py.Raise (Py.KeyError "steps"), SampleStore.bare_world).
Proof.
  apply (missing_keys_raise Sample.clock Json.loads Sample.task
           SampleStore.bare_world SampleStore.bare_world []);
    vm_compute; reflexivity.
Defined.

Lemma operations_need_an_object_witness :
  exists e w',
    StateManager.run Sample.clock Json.loads Sample.task StateManager.CanRetry
      SampleStore.list_world = (Py.Raise e, w') /\
    (e = Py.TypeError \/ e = Py.AttributeError).
Proof.
  destruct (operations_need_an_object Sample.clock Json.loads Sample.task
              SampleStore.list_world SampleStore.list_world (Py.VList [])
              StateManager.CanRetry)
    as (e & w' & E & He & _); try (vm_compute; reflexivity).
  exists e, w'. auto.
Defined.

Lemma init_state_overwrites_witness :
  StateManager.init_state Sample.clock Sample.task 5
    (StateManager.mkWorld StateManager.Missing 7)
  = StateManager.init_state Sample.clock Sample.task 5 Sample.corrupt_world.
Proof.
  destruct (init_state_overwrites Sample.clock Sample.task
              Sample.corrupt_world 5) as (d & _ & _ & _ & _ & H).
  apply H. reflexivity.
Defined.

Lemma update_step_keeps_steps_witness :
  exists d' steps',
    fst (StateManager.update_step Sample.clock Json.loads Sample.task
           "deploy" [("status", Py.VStr "pending")] Sample.fresh_world)
    = Py.Ok (Py.VDict d') /\
    Py.dict_get d' "steps" = Some (Py.VDict steps') /\
    map fst steps' = (StateManager.step_order ++ ["deploy"])%list.
Proof.
  destruct (update_step_keeps_steps Sample.clock Json.loads Sample.task
              Sample.fresh_world Sample.fresh_world
              (Sample.record_of_world Sample.fresh_world)
              (Sample.steps_of_world Sample.fresh_world)
              "deploy" [("status", Py.VStr "pending")])
    as (d' & steps' & E & Hs & Hk & _); try (vm_compute; reflexivity).
  - intros r H. vm_compute in H. discriminate H.
  - exists d', steps'. split; [exact E|]. split; [exact Hs|]. exact Hk.
Defined.

Lemma update_step_without_fields_witness :
  StateManager.update_step Sample.clock Json.loads Sample.task "design" []
    Sample.fresh_world
  = StateManager.save Sample.clock Sample.fresh_state Sample.fresh_world.
Proof.
  apply (update_step_without_fields Sample.clock Json.loads Sample.task
           Sample.fresh_world Sample.fresh_world Sample.fresh_dict
           (Sample.steps_of_world Sample.fresh_world) "design"
           [("status", Py.VStr "pending")]);
    vm_compute; reflexivity.
Defined.

Lemma null_counters_raise_witness :
  StateManager.increment_retry Sample.clock Json.loads Sample.task
    SampleStore.null_world
  = (Py.Raise Py.TypeError, SampleStore.null_world) /\
  StateManager.can_retry Sample.clock Json.loads Sample.task
    SampleStore.null_world
  = (Py.Raise Py.TypeError, SampleStore.null_world).
Proof.
  destruct (null_counters_raise Sample.clock Json.loads Sample.task
              SampleStore.null_world SampleStore.null_world
              SampleStore.null_record Py.VNone) as (H1 & H2 & _);
    try (vm_compute; reflexivity).
  split; [apply H1|apply H2; left]; reflexivity.
Defined.

Lemma save_stamps_only_witness :
  exists d',
    fst (StateManager.save Sample.clock Sample.fresh_state Sample.fresh_world)
    = Py.Ok (Py.VDict d') /\
    Py.dict_get d' "created_at" = Some (Py.VStr (Sample.clock 0)) /\
    map fst d' = map fst Sample.fresh_dict.
Proof.
  destruct (save_stamps_only Sample.clock Sample.fresh_dict Sample.fresh_world)
    as (d' & E & _ & Hf & Hk); [vm_compute; reflexivity|].
  exists d'. split; [exact (f_equal fst E)|].
  split; [rewrite Hf by discriminate; reflexivity|exact Hk].
Defined.

Lemma returned_state_is_persisted_witness :
  let w' := snd (StateManager.increment_retry Sample.clock Json.loads
                   Sample.task Sample.fresh_world) in
  fst (StateManager.load Sample.clock Json.loads Sample.task w')
  = fst (StateManager.increment_retry Sample.clock Json.loads Sample.task
           Sample.fresh_world).
Proof.
  cbv zeta.
  destruct (StateManager.increment_retry Sample.clock Json.loads Sample.task
              Sample.fresh_world) as [[state|e] w'] eqn:E;
    [|vm_compute in E; discriminate E].
  cbn [fst snd].
  rewrite (returned_state_is_persisted Sample.clock Json.loads Sample.task
             StateManager.IncrementRetry Sample.fresh_world state w').
  - reflexivity.
  - cbn [StateManager.run]. unfold StateManager.answering, StateManager.bind.
    now rewrite E.
  - vm_compute in E. injection E as <- <-. vm_compute. reflexivity.
Defined.

Lemma init_overrides_defaults_witness :
  exists c,
    LLMClient.__init__ "claude" (Some [("timeout", LLMClient.CInt 30)])
    = Py.Ok c /\
    Py.dict_get (LLMClient.client_config c) "timeout"
    = Some (LLMClient.CInt 30) /\
    Py.dict_get (LLMClient.client_config c) "args"
    = Some (LLMClient.CStrs ["--print"]).
Proof.
  destruct (init_overrides_defaults "claude" [("timeout", LLMClient.CInt 30)])
    as (c & defaults & E & _ & D & H).
  - simpl. auto.
  - repeat constructor. simpl. tauto.
  - exists c. split; [exact E|]. rewrite !H. vm_compute in D.
    injection D as <-. split; reflexivity.
Defined.

Lemma call_timeout_as_configured_witness :
  LLMClient.invoke SampleRun.subprocess_run SampleRun.http_chat
    SampleRun.strip SampleRun.format SampleClient.claude "hello" None (Some 30)
  = LLMClient.invoke SampleRun.subprocess_run SampleRun.http_chat
      SampleRun.strip SampleRun.format
      (ClientSpec.with_timeout SampleClient.claude 30) "hello" None None.
Proof.
  apply (call_timeout_as_configured SampleRun.subprocess_run
           SampleRun.http_chat SampleRun.strip SampleRun.format).
  discriminate.
Defined.

Lemma first_bad_file_decides_witness :
  LLMClient.invoke_with_files SampleRun.subprocess_run SampleRun.http_chat
    SampleRun.strip SampleRun.format SampleRun.path_exists
    SampleRun.path_read_text SampleRun.path_name
    SampleClient.claude "review" ["a.py"; "b.py"; "c.py"] None None
  = Py.Raise (Py.LLMError "Context file not found: b.py").
Proof.
  apply (proj1 (first_bad_file_decides SampleRun.subprocess_run
                  SampleRun.http_chat SampleRun.strip SampleRun.format
                  SampleRun.path_exists SampleRun.path_read_text
                  SampleRun.path_name SampleClient.claude "review"
                  (fun _ => "print(1)") ["a.py"] "b.py" ["c.py"] None None
                  ltac:(intros p [<-|[]]; split; reflexivity))).
  reflexivity.
Defined.

Lemma context_goes_before_prompt_witness :
  LLMClient.invoke_with_files SampleRun.subprocess_run SampleRun.http_chat
    SampleRun.strip SampleRun.format SampleRun.path_exists
    SampleRun.path_read_text SampleRun.path_name
    SampleClient.claude "review" ["a.py"] None None
  = LLMClient.invoke SampleRun.subprocess_run SampleRun.http_chat
      SampleRun.strip SampleRun.format SampleClient.claude
      (ClientSpec.with_context [ClientSpec.labelled "a.py" "print(1)"] "review")
      None None.
Proof.
  apply (context_goes_before_prompt SampleRun.subprocess_run
           SampleRun.http_chat SampleRun.strip SampleRun.format
           SampleRun.path_exists SampleRun.path_read_text SampleRun.path_name
           SampleClient.claude "review" (fun _ => "print(1)") ["a.py"]).
  - discriminate.
  - intros p [<-|[]]. split; reflexivity.
Defined.

Lemma invoke_raises_only_llm_error_witness :
  ClientSpec.returns_or_llm_error
    (LLMClient.invoke SampleRun.subprocess_run SampleRun.http_chat
       SampleRun.strip SampleRun.format SampleClient.claude "hello" None None).
Proof.
  apply (invoke_raises_only_llm_error SampleRun.subprocess_run
           SampleRun.http_chat SampleRun.strip SampleRun.format
           "claude" None); reflexivity.
Defined.

Lemma command_must_be_iterable_witness :
  LLMClient.invoke SampleRun.subprocess_run SampleRun.http_chat
    SampleRun.strip SampleRun.format
    (LLMClient.mkClient "claude" [("command", LLMClient.CInt 5)])
    "hello" None None
  = Py.Raise Py.TypeError.
Proof.
  apply (command_must_be_iterable SampleRun.subprocess_run
           SampleRun.http_chat SampleRun.strip SampleRun.format
           _ (LLMClient.CInt 5)); [now left|reflexivity|reflexivity].
Defined.

Lemma update_step_needs_a_record_witness :
  StateManager.update_step Sample.clock Json.loads Sample.task "design"
    [("status", Py.VStr "completed")]
    (StateManager.mkWorld
       (StateManager.Directory
          (Some (Json.json_dumps
                   (Py.VDict [("steps",
                               Py.VDict [("design", Py.VStr "done")])]))))
       0)
  = (Py.Raise Py.TypeError,
     StateManager.mkWorld
       (StateManager.Directory
          (Some (Json.json_dumps
                   (Py.VDict [("steps",
                               Py.VDict [("design", Py.VStr "done")])]))))
       0).
Proof.
  apply (update_step_needs_a_record Sample.clock Json.loads Sample.task
           _ _ [("steps", Py.VDict [("design", Py.VStr "done")])]
           [("design", Py.VStr "done")] "design" (Py.VStr "done"));
    vm_compute; reflexivity.
Defined.

Lemma default_command_lines_witness :
  LLMClient.invoke SampleRun.subprocess_run SampleRun.http_chat
    SampleRun.strip SampleRun.format SampleClient.claude "hello" None None
  = Py.Ok "done".
Proof.
  apply (proj1 (default_command_lines SampleRun.subprocess_run
                  SampleRun.http_chat SampleRun.strip SampleRun.format
                  "hello" None None "done" EmptyString
                  SampleClient.claude
                  (LLMClient.mkClient "gemini"
                     [ ("command", LLMClient.CStrs ["gemini"; "-p"]);
                       ("args", LLMClient.CStrs []);
                       ("timeout", LLMClient.CInt 120) ])
                  eq_refl eq_refl)).
  reflexivity.
Defined.

(** C5 as stated fails: fields that hold a path object are merged in
    memory, but the save raises after the file was emptied, no state is
    returned, and the next [load] finds a record cut short. *)
Lemma update_step_fails_on_path :
  ~ StoreSpec.merges_any_fields Sample.clock Json.loads Sample.task
      Sample.fresh_world "design" [("output", Py.VObj 0)] /\
  fst (StateManager.update_step Sample.clock Json.loads Sample.task
         "design" [("output", Py.VObj 0)] Sample.fresh_world)
  = Py.Raise Py.TypeError /\
  fst (StateManager.load Sample.clock Json.loads Sample.task
         (snd (StateManager.update_step Sample.clock Json.loads Sample.task
                 "design" [("output", Py.VObj 0)] Sample.fresh_world)))
  = Py.Raise Py.JSONDecodeError.
Proof.
  split; [|split; vm_compute; reflexivity].
  intros H.
  destruct (H Sample.fresh_world Sample.fresh_dict
              (Sample.steps_of_world Sample.fresh_world))
    as (d' & steps' & record' & E & _); try (vm_compute; reflexivity).
  vm_compute in E. discriminate E.
Qed.

Lemma update_step_unencodable_witness :
  fst (StateManager.update_step Sample.clock Json.loads Sample.task
         "design" [("output", Py.VObj 0)] Sample.fresh_world)
  = Py.Raise Py.TypeError.
Proof.
  assert (Hl : StateManager.load Sample.clock Json.loads Sample.task
                 Sample.fresh_world
               = (Py.Ok (Py.VDict Sample.fresh_dict), Sample.fresh_world))
    by (vm_compute; reflexivity).
  assert (Hs : Py.dict_get Sample.fresh_dict "steps"
               = Some (Py.VDict (Sample.steps_of_world Sample.fresh_world)))
    by (vm_compute; reflexivity).
  assert (Hwf : forall r,
             Py.dict_get (Sample.steps_of_world Sample.fresh_world) "design"
             = Some r -> exists record, r = Py.VDict record).
  { intros r H. vm_compute in H. injection H as <-. eexists; reflexivity. }
  assert (Hnd : NoDup (map fst [("output", Py.VObj 0)]))
    by (repeat constructor; simpl; auto).
  destruct (update_step_unencodable Sample.clock Json.loads Sample.task
              Sample.fresh_world Sample.fresh_world Sample.fresh_dict
              (Sample.steps_of_world Sample.fresh_world)
              "design" [("output", Py.VObj 0)] Hl Hs Hwf Hnd eq_refl)
    as [E _].
  rewrite E. reflexivity.
Defined.
